(** * Universal MongoDB analysis evaluator: model and properties

    A shallow embedding of [mongodb_evaluation_system.py]: the four rate
    calculators of [UniversalMongoDBEvaluator], the pattern catalogue of
    [_has_semantic_error], the value comparison of [_values_match], the
    consistency score and the pass/fail gate.

    Modelling conventions.
    - A Python [str] is a [string] of bytes holding its UTF-8 encoding.
      [lower] folds the ASCII letters; the keywords the program looks for
      are ASCII or Hangul, which case folding neither produces nor changes,
      and a substring test on well-formed UTF-8 agrees with the test on
      code points.  Whitespace is the ASCII whitespace of [str.isspace];
      a byte of a multi-byte character counts as part of a letter.
    - A Python value is a [PyVal]: None, bool, int, float, str, list and
      dict (an association list in insertion order, keys being strings).
    - A Python [float] is a [pyfloat]: an exact rational, an infinity or
      NaN.  Arithmetic on finite values is exact; binary64 rounding is not
      modelled.  Integers are unbounded and are taken in the range where
      [np.isnan] and [np.isinf] accept them and where they convert to a
      float.
    - A raised exception is a value of [exn]; fallible code lives in the
      error monad [res].
    - [re.search] is modelled by a backtracking matcher over the fragment
      of regular expressions the catalogue uses (character classes,
      [c{n,}] repetition of a class, one capture group and its
      back-reference), with ASCII case folding for [re.IGNORECASE].
    - The [timestamp] of a record plays no part in the evaluation and is
      left out. *)

From Stdlib Require Import Bool Arith List ZArith QArith Qabs Lia.
From Stdlib Require Import Ascii String DecimalString.
From Stdlib Require Import Permutation.
Import ListNotations.

Set Warnings "-register-all".

Open Scope string_scope.
Open Scope bool_scope.

(** ** Strings *)

Module Str.

Definition code (a : ascii) : nat := nat_of_ascii a.

Definition between (lo hi : nat) (a : ascii) : bool :=
  Nat.leb lo (code a) && Nat.leb (code a) hi.

Definition is_upper (a : ascii) : bool := between 65 90 a.
Definition is_lower (a : ascii) : bool := between 97 122 a.
Definition is_digit (a : ascii) : bool := between 48 57 a.

(** [str.isspace] on one character: TAB..CR, FS..US and the space. *)
Definition is_space (a : ascii) : bool :=
  between 9 13 a || between 28 32 a.

(** [\w]: letters, digits, underscore; a byte of a multi-byte character is
    taken to belong to a letter. *)
Definition is_word (a : ascii) : bool :=
  is_upper a || is_lower a || is_digit a || Nat.eqb (code a) 95 ||
  Nat.leb 128 (code a).

Definition lower_ascii (a : ascii) : ascii :=
  if is_upper a then ascii_of_nat (code a + 32) else a.

(** [s.lower()] *)
Fixpoint lower (s : string) : string :=
  match s with
  | EmptyString => EmptyString
  | String a s' => String (lower_ascii a) (lower s')
  end.

(** [s.startswith(p)] *)
Fixpoint starts_with (p s : string) : bool :=
  match p, s with
  | EmptyString, _ => true
  | String a p', String b s' => Ascii.eqb a b && starts_with p' s'
  | String _ _, EmptyString => false
  end.

(** [needle in hay] *)
Fixpoint contains (needle hay : string) : bool :=
  starts_with needle hay ||
  match hay with
  | EmptyString => false
  | String _ hay' => contains needle hay'
  end.

(** [any(word in s for word in words)] *)
Definition contains_any (words : list string) (s : string) : bool :=
  existsb (fun word => contains word s) words.

Fixpoint lstrip (s : string) : string :=
  match s with
  | EmptyString => EmptyString
  | String a s' => if is_space a then lstrip s' else s
  end.

Fixpoint rstrip (s : string) : string :=
  match s with
  | EmptyString => EmptyString
  | String a s' =>
      match rstrip s' with
      | EmptyString => if is_space a then EmptyString else String a EmptyString
      | t => String a t
      end
  end.

(** [s.strip()] *)
Definition strip (s : string) : string := rstrip (lstrip s).

(** [sep.join(parts)] *)
Fixpoint join (sep : string) (parts : list string) : string :=
  match parts with
  | [] => EmptyString
  | [p] => p
  | p :: ps => p ++ sep ++ join sep ps
  end.

(** [all(test(c) for c in s)] *)
Fixpoint all (test : ascii -> bool) (s : string) : bool :=
  match s with
  | EmptyString => true
  | String a s' => test a && all test s'
  end.

(** [c * n] *)
Fixpoint replicate (n : nat) (c : ascii) : string :=
  match n with
  | O => EmptyString
  | S n' => String c (replicate n' c)
  end.

(** No line feed in [s]. *)
Definition single_line (s : string) : bool :=
  all (fun a => negb (Nat.eqb (code a) 10)) s.

End Str.

(** ** Numbers *)

(** A Python float: exact on finite values, with the two infinities and NaN. *)
Inductive pyfloat : Type :=
  | Fin (q : Q)
  | PosInf
  | NegInf
  | NaN.

Module Num.

Definition of_Z (z : Z) : pyfloat := Fin (inject_Z z).

Definition Qlt_bool (a b : Q) : bool := negb (Qle_bool b a).

(** [x < y] *)
Definition ltb (x y : pyfloat) : bool :=
  match x, y with
  | NaN, _ | _, NaN => false
  | Fin a, Fin b => Qlt_bool a b
  | Fin _, PosInf => true
  | Fin _, NegInf => false
  | PosInf, _ => false
  | NegInf, NegInf => false
  | NegInf, _ => true
  end.

(** [x <= y] *)
Definition leb (x y : pyfloat) : bool :=
  match x, y with
  | NaN, _ | _, NaN => false
  | Fin a, Fin b => Qle_bool a b
  | Fin _, PosInf => true
  | Fin _, NegInf => false
  | PosInf, PosInf => true
  | PosInf, _ => false
  | NegInf, _ => true
  end.

(** [x > y] and [x >= y] *)
Definition gtb (x y : pyfloat) : bool := ltb y x.
Definition geb (x y : pyfloat) : bool := leb y x.

(** [x == y] *)
Definition eqb (x y : pyfloat) : bool :=
  match x, y with
  | Fin a, Fin b => Qeq_bool a b
  | PosInf, PosInf => true
  | NegInf, NegInf => true
  | _, _ => false
  end.

(** [x - y] *)
Definition sub (x y : pyfloat) : pyfloat :=
  match x, y with
  | NaN, _ | _, NaN => NaN
  | Fin a, Fin b => Fin (a - b)
  | Fin _, PosInf => NegInf
  | Fin _, NegInf => PosInf
  | PosInf, PosInf => NaN
  | PosInf, _ => PosInf
  | NegInf, NegInf => NaN
  | NegInf, _ => NegInf
  end.

(** [abs(x)] *)
Definition abs (x : pyfloat) : pyfloat :=
  match x with
  | Fin a => Fin (Qabs a)
  | PosInf | NegInf => PosInf
  | NaN => NaN
  end.

(** [np.isnan], [np.isinf] *)
Definition isnan (x : pyfloat) : bool :=
  match x with NaN => true | _ => false end.
Definition isinf (x : pyfloat) : bool :=
  match x with PosInf | NegInf => true | _ => false end.

(** [a / b] on two integers (true division), for [b <> 0]. *)
Definition int_div (a b : nat) : Q :=
  inject_Z (Z.of_nat a) / inject_Z (Z.of_nat b).

(** [max(a, b)]: the first argument unless the second is greater. *)
Definition max (a b : Q) : Q := if Qlt_bool a b then b else a.

End Num.

(** ** Values *)

Inductive PyVal : Type :=
  | VNone
  | VBool (b : bool)
  | VInt (z : Z)
  | VFloat (f : pyfloat)
  | VStr (s : string)
  | VList (l : list PyVal)
  | VDict (d : list (string * PyVal)).

(** A dict with [str] keys, in insertion order. *)
Definition dict (A : Type) : Type := list (string * A).

(** [d.get(key)] *)
Fixpoint dict_get {A : Type} (key : string) (d : dict A) : option A :=
  match d with
  | [] => None
  | (k, v) :: d' => if String.eqb key k then Some v else dict_get key d'
  end.

(** [key in d] *)
Definition has_key {A : Type} (key : string) (d : dict A) : bool :=
  match dict_get key d with Some _ => true | None => false end.

Inductive pytype : Type :=
  | TNone | TBool | TInt | TFloat | TStr | TList | TDict.

(** [type(v)] *)
Definition type_of (v : PyVal) : pytype :=
  match v with
  | VNone => TNone
  | VBool _ => TBool
  | VInt _ => TInt
  | VFloat _ => TFloat
  | VStr _ => TStr
  | VList _ => TList
  | VDict _ => TDict
  end.

Definition pytype_eqb (a b : pytype) : bool :=
  match a, b with
  | TNone, TNone | TBool, TBool | TInt, TInt | TFloat, TFloat
  | TStr, TStr | TList, TList | TDict, TDict => true
  | _, _ => false
  end.

Definition type_name (t : pytype) : string :=
  match t with
  | TNone => "NoneType"
  | TBool => "bool"
  | TInt => "int"
  | TFloat => "float"
  | TStr => "str"
  | TList => "list"
  | TDict => "dict"
  end.

(** The numeric reading of a value for which
    [isinstance(v, (int, float))] holds; [bool] is a subclass of [int]. *)
Definition as_num (v : PyVal) : option pyfloat :=
  match v with
  | VBool b => Some (Num.of_Z (if b then 1 else 0))
  | VInt z => Some (Num.of_Z z)
  | VFloat f => Some f
  | _ => None
  end.

(** [isinstance(v, (int, float))] *)
Definition is_number (v : PyVal) : bool :=
  match as_num v with Some _ => true | None => false end.

(** [isinstance(v, str)] *)
Definition is_str (v : PyVal) : bool :=
  match v with VStr _ => true | _ => false end.

(** [isinstance(v, (list, dict))] *)
Definition is_list_or_dict (v : PyVal) : bool :=
  match v with VList _ | VDict _ => true | _ => false end.


(** [all(test(x, y) for x, y in zip(xs, ys))] on lists of one length. *)
Fixpoint all2 {A : Type} (test : A -> A -> bool) (xs ys : list A) : bool :=
  match xs, ys with
  | [], [] => true
  | x :: xs', y :: ys' => test x y && all2 test xs' ys'
  | _, _ => false
  end.

(** [x == y] on values.  Numbers compare by value across [bool], [int] and
    [float], lists element by element, dicts key by key whatever the order
    of insertion, and values of unrelated types are unequal. *)
Fixpoint py_eq (x y : PyVal) {struct x} : bool :=
  match x, y with
  | VNone, VNone => true
  | VStr a, VStr b => String.eqb a b
  | VList a, VList b => all2 py_eq a b
  | VDict a, VDict b =>
      Nat.eqb (List.length a) (List.length b) &&
      forallb (fun kv =>
                 match dict_get (fst kv) b with
                 | Some w => py_eq (snd kv) w
                 | None => false
                 end) a
  | _, _ =>
      match as_num x, as_num y with
      | Some p, Some q => Num.eqb p q
      | _, _ => false
      end
  end.

(** ** Textual form of values: [repr] and [str] *)

Module Repr.

Definition chr (n : nat) : string := String (ascii_of_nat n) EmptyString.

Definition backslash : ascii := ascii_of_nat 92.
Definition squote : ascii := ascii_of_nat 39.
Definition dquote : ascii := ascii_of_nat 34.

Definition repr_int (z : Z) : string := NilEmpty.string_of_int (Z.to_int z).

Definition hex_digit (n : nat) : ascii :=
  nth n (list_ascii_of_string "0123456789abcdef") "0"%char.

Fixpoint has_char (c : ascii) (s : string) : bool :=
  match s with
  | EmptyString => false
  | String a s' => Ascii.eqb a c || has_char c s'
  end.

(** One character of a string literal delimited by [quote]. *)
Definition escape_char (quote a : ascii) : string :=
  let n := Str.code a in
  if Ascii.eqb a backslash then String backslash (String backslash EmptyString)
  else if Ascii.eqb a quote then String backslash (String a EmptyString)
  else if Nat.eqb n 9 then String backslash "t"
  else if Nat.eqb n 10 then String backslash "n"
  else if Nat.eqb n 13 then String backslash "r"
  else if Nat.ltb n 32 || Nat.eqb n 127 then
    String backslash
      (String "x" (String (hex_digit (n / 16))
         (String (hex_digit (n mod 16)) EmptyString)))
  else String a EmptyString.

Fixpoint escape (quote : ascii) (s : string) : string :=
  match s with
  | EmptyString => EmptyString
  | String a s' => escape_char quote a ++ escape quote s'
  end.

(** [repr(s)] for a [str]: single quotes, unless the text has a single
    quote and no double quote. *)
Definition repr_str (s : string) : string :=
  let quote :=
    if has_char squote s && negb (has_char dquote s) then dquote else squote in
  String quote (escape quote s ++ String quote EmptyString).

(** Digits after the decimal point of [r / d], for [0 <= r < d]. *)
Fixpoint frac_digits (fuel : nat) (r d : Z) : string :=
  match fuel with
  | O => EmptyString
  | S fuel' =>
      let r10 := (r * 10)%Z in
      repr_int (r10 / d) ++
      (if (r10 mod d =? 0)%Z then EmptyString
       else frac_digits fuel' (r10 mod d) d)
  end.

(** [repr(f)] for a float, in positional notation with at most 17
    fractional digits.  (Python prints the shortest digits that read back
    as the same binary64 value, and uses an exponent for very large and
    very small magnitudes; either way the text is made of digits, a sign,
    a point and the letter e.) *)
Definition repr_float (f : pyfloat) : string :=
  match f with
  | NaN => "nan"
  | PosInf => "inf"
  | NegInf => "-inf"
  | Fin q =>
      let n := Qnum q in
      let d := Zpos (Qden q) in
      let a := Z.abs n in
      (if (n <? 0)%Z then "-" else EmptyString) ++
      repr_int (a / d) ++ "." ++ frac_digits 17 (a mod d) d
  end.

(** [repr(v)] *)
Fixpoint py_repr (v : PyVal) : string :=
  match v with
  | VNone => "None"
  | VBool true => "True"
  | VBool false => "False"
  | VInt z => repr_int z
  | VFloat f => repr_float f
  | VStr s => repr_str s
  | VList l => "[" ++ Str.join ", " (map py_repr l) ++ "]"
  | VDict d =>
      "{" ++
      Str.join ", "
        (map (fun kv => repr_str (fst kv) ++ ": " ++ py_repr (snd kv)) d) ++
      "}"
  end.

(** [str(v)] *)
Definition py_str (v : PyVal) : string :=
  match v with
  | VStr s => s
  | _ => py_repr v
  end.

End Repr.

(** ** Exceptions *)

Inductive exn : Type :=
  | KeyError (key : string)
  | AttributeError (type attr : string)
  | TypeError (msg : string).

(** The name of the exception class. *)
Definition exn_name (e : exn) : string :=
  match e with
  | KeyError _ => "KeyError"
  | AttributeError _ _ => "AttributeError"
  | TypeError _ => "TypeError"
  end.

Inductive res (A : Type) : Type :=
  | Ok (a : A)
  | Raise (e : exn).

Arguments Ok {A} a.
Arguments Raise {A} e.

Definition bind {A B : Type} (c : res A) (k : A -> res B) : res B :=
  match c with
  | Ok a => k a
  | Raise e => Raise e
  end.

Notation "x <- c ;; k" := (bind c (fun x => k))
  (at level 61, c at next level, right associativity).

(** [d[key]] *)
Definition getitem {A : Type} (d : dict A) (key : string) : res A :=
  match dict_get key d with
  | Some v => Ok v
  | None => Raise (KeyError key)
  end.

(** [v.items()]: only a dict has the method. *)
Definition py_items (v : PyVal) : res (dict PyVal) :=
  match v with
  | VDict d => Ok d
  | _ => Raise (AttributeError (type_name (type_of v)) "items")
  end.

(** [v.values()] *)
Definition py_values (v : PyVal) : res (list PyVal) :=
  match v with
  | VDict d => Ok (map snd d)
  | _ => Raise (AttributeError (type_name (type_of v)) "values")
  end.

(** The number of characters of a text: the bytes that do not continue a
    multi-byte character. *)
Fixpoint str_len (s : string) : nat :=
  match s with
  | EmptyString => 0
  | String a s' =>
      (if Str.between 128 191 a then 0 else 1) + str_len s'
  end.

(** [len(v)] *)
Definition py_len (v : PyVal) : res nat :=
  match v with
  | VStr s => Ok (str_len s)
  | VList l => Ok (List.length l)
  | VDict d => Ok (List.length d)
  | _ => Raise (TypeError "object has no len()")
  end.

(** The truth value of [v], as [not v] and [v or ...] read it. *)
Definition py_truthy (v : PyVal) : bool :=
  match v with
  | VNone => false
  | VBool b => b
  | VInt z => negb (z =? 0)%Z
  | VFloat f => negb (Num.eqb f (Fin 0))
  | VStr s => negb (String.eqb s EmptyString)
  | VList l => negb (Nat.eqb (List.length l) 0)
  | VDict d => negb (Nat.eqb (List.length d) 0)
  end.

(** ** Regular expressions: [re.search(pattern, text, re.IGNORECASE)] *)

Module Re.

(** What one position of a pattern accepts. *)
Inductive cclass : Type :=
  | Lit (c : ascii)       (* the character c, whatever its case *)
  | OneOf (cs : string)   (* [cs] *)
  | Word                  (* \w *)
  | Space                 (* \s *)
  | Dot.                  (* . : any character but a line feed *)

Inductive item : Type :=
  | One (c : cclass)
  | AtLeast (n : nat) (c : cclass)   (* c{n,}; c* is c{0,} and c+ is c{1,} *)
  | GroupOpen                        (* ( *)
  | GroupClose                       (* ) *)
  | BackRef.                         (* \1 *)

Definition regex : Type := list item.

Definition class_match (c : cclass) (a : ascii) : bool :=
  match c with
  | Lit c => Ascii.eqb (Str.lower_ascii a) (Str.lower_ascii c)
  | OneOf cs => Repr.has_char (Str.lower_ascii a) (Str.lower cs)
  | Word => Str.is_word a
  | Space => Str.is_space a
  | Dot => negb (Nat.eqb (Str.code a) 10)
  end.

(** The text of group 1, and the text read so far in the group when the
    matcher is inside it. *)
Record caps : Type := {
  opened : option string;
  group1 : option string
}.

Definition no_caps : caps := {| opened := None; group1 := None |}.

Definition push (a : ascii) (st : caps) : caps :=
  {| opened := option_map (fun w => w ++ String a EmptyString) (opened st);
     group1 := group1 st |}.

Definition open_group (st : caps) : caps :=
  {| opened := Some EmptyString; group1 := group1 st |}.

Definition close_group (st : caps) : caps :=
  {| opened := None; group1 := opened st |}.

(** Greedy repetition of a class, at least [n] times, then [k]. *)
Fixpoint repeat (k : caps -> string -> bool) (c : cclass) (n : nat)
    (st : caps) (s : string) {struct s} : bool :=
  if match s with
     | String a s' =>
         if class_match c a then repeat k c (pred n) (push a st) s' else false
     | EmptyString => false
     end
  then true
  else if Nat.eqb n 0 then k st s else false.

(** The text [w] read again, whatever the case, then [k]. *)
Fixpoint again (k : caps -> string -> bool) (w : string)
    (st : caps) (s : string) {struct w} : bool :=
  match w with
  | EmptyString => k st s
  | String c w' =>
      match s with
      | String a s' =>
          if class_match (Lit c) a then again k w' (push a st) s' else false
      | EmptyString => false
      end
  end.

(** [re.match]: does the pattern match at the start of [s]? *)
Fixpoint match_here (p : regex) (st : caps) (s : string) {struct p} : bool :=
  match p with
  | [] => true
  | One c :: p' =>
      match s with
      | String a s' =>
          if class_match c a then match_here p' (push a st) s' else false
      | EmptyString => false
      end
  | AtLeast n c :: p' => repeat (match_here p') c n st s
  | GroupOpen :: p' => match_here p' (open_group st) s
  | GroupClose :: p' => match_here p' (close_group st) s
  | BackRef :: p' =>
      match group1 st with
      | Some w => again (match_here p') w st s
      | None => false
      end
  end.

(** [re.search]: does the pattern match somewhere in [s]? *)
Fixpoint search (p : regex) (s : string) : bool :=
  if match_here p no_caps s then true
  else
    match s with
    | String _ s' => search p s'
    | EmptyString => false
    end.

(** A run of literal characters. *)
Definition lits (s : string) : regex :=
  map (fun c => One (Lit c)) (list_ascii_of_string s).

Definition star (c : cclass) : item := AtLeast 0 c.
Definition plus (c : cclass) : item := AtLeast 1 c.

End Re.

(** ** The evaluator *)

Record UniversalAnalysisResult : Type := {
  analysis_query : string;
  mongodb_queries : list string;
  calculation_results : PyVal;
  execution_logs : list (dict PyVal)
}.

Record EvaluationMetrics : Type := {
  semantic_error_rate : Q;
  execution_success_rate : Q;
  empty_result_rate : Q;
  accuracy_rate : Q;
  overall_pass : bool
}.

Record UniversalMongoDBEvaluator : Type := {
  thresholds : dict pyfloat
}.

Definition default_thresholds : dict pyfloat :=
  [ ("semantic_error", Fin 0.1);
    ("execution_success", Fin 0.8);
    ("empty_result", Fin 0.2);
    ("accuracy", Fin 0.9) ].

(** [__init__]: [self.thresholds = thresholds or {...}]; [None] and the
    empty dict are both false. *)
Definition __init__ (thresholds : option (dict pyfloat))
  : UniversalMongoDBEvaluator :=
  {| thresholds :=
       match thresholds with
       | Some [] | None => default_thresholds
       | Some t => t
       end |}.

(** [for x in xs: if test(x): n += 1] *)
Fixpoint count_where {A : Type} (test : A -> bool) (xs : list A) (n : nat)
  : nat :=
  match xs with
  | [] => n
  | x :: xs' => count_where test xs' (if test x then S n else n)
  end.

(** The same loop when the test may raise. *)
Fixpoint count_whereM {A : Type} (test : A -> res bool) (xs : list A)
    (n : nat) : res nat :=
  match xs with
  | [] => Ok n
  | x :: xs' =>
      b <- test x ;;
      count_whereM test xs' (if b then S n else n)
  end.

(** [isinstance(v, (int, float)) and test(v)] *)
Definition num_test (test : pyfloat -> bool) (v : PyVal) : bool :=
  match as_num v with
  | Some x => test x
  | None => false
  end.

(** The catalogue of [_has_semantic_error], in the order of the source:
<<
  (\w+)\s*[!=<>]+\s*\1
  count.*==.*0.*AND.*exists
  >\s*9{8,}
  \$match.*\{\s*\}
  \$group.*_id.*_id
>> *)
Definition self_comparison : Re.regex :=
  [ Re.GroupOpen; Re.plus Re.Word; Re.GroupClose; Re.star Re.Space;
    Re.plus (Re.OneOf "!=<>"); Re.star Re.Space; Re.BackRef ].

Definition count_zero_exists : Re.regex :=
  (Re.lits "count" ++ [Re.star Re.Dot] ++ Re.lits "==" ++ [Re.star Re.Dot] ++
   Re.lits "0" ++ [Re.star Re.Dot] ++ Re.lits "AND" ++ [Re.star Re.Dot] ++
   Re.lits "exists")%list.

Definition huge_number : Re.regex :=
  (Re.lits ">" ++ [Re.star Re.Space; Re.AtLeast 8 (Re.Lit "9")])%list.

Definition empty_match : Re.regex :=
  (Re.lits "$match" ++ [Re.star Re.Dot] ++ Re.lits "{" ++ [Re.star Re.Space] ++
   Re.lits "}")%list.

Definition duplicate_grouping : Re.regex :=
  (Re.lits "$group" ++ [Re.star Re.Dot] ++ Re.lits "_id" ++ [Re.star Re.Dot] ++
   Re.lits "_id")%list.

Definition logical_error_patterns : list Re.regex :=
  [ self_comparison; count_zero_exists; huge_number; empty_match;
    duplicate_grouping ].

Definition rate_words : list string := ["비율"; "율"; "percent"; "rate"].

Definition _check_result_query_mismatch (query : string)
    (analysis_result : UniversalAnalysisResult) : res bool :=
  negative <-
    (if Str.contains "count" (Str.lower query) then
       items <- py_items (calculation_results analysis_result) ;;
       Ok (existsb (fun kv => num_test (fun x => Num.ltb x (Fin 0)) (snd kv))
             items)
     else Ok false) ;;
  if negative then Ok true
  else if Str.contains_any rate_words
            (Str.lower (analysis_query analysis_result)) then
    items <- py_items (calculation_results analysis_result) ;;
    Ok (existsb (fun kv => num_test (fun x => Num.gtb x (Fin 100)) (snd kv))
          items)
  else Ok false.

Definition _has_semantic_error (query : string)
    (analysis_result : UniversalAnalysisResult) : res bool :=
  if existsb (fun pattern => Re.search pattern query) logical_error_patterns
  then Ok true
  else _check_result_query_mismatch query analysis_result.

Definition _calculate_semantic_error_rate
    (analysis_result : UniversalAnalysisResult) : res Q :=
  match mongodb_queries analysis_result with
  | [] => Ok 0
  | queries =>
      let total_queries := List.length queries in
      semantic_errors <-
        count_whereM (fun query => _has_semantic_error query analysis_result)
          queries 0 ;;
      Ok (if Nat.ltb 0 total_queries
          then Num.int_div semantic_errors total_queries else 0)
  end.

(** [log.get("status") == "success" or log.get("error") is None] *)
Definition log_succeeded (log : dict PyVal) : bool :=
  match dict_get "status" log with
  | Some status => py_eq status (VStr "success")
  | None => false
  end ||
  match dict_get "error" log with
  | None | Some VNone => true
  | Some _ => false
  end.

Definition _calculate_execution_success_rate
    (analysis_result : UniversalAnalysisResult) : Q :=
  match execution_logs analysis_result with
  | [] => 1
  | logs =>
      let total_executions := List.length logs in
      let successful_executions := count_where log_succeeded logs 0 in
      if Nat.ltb 0 total_executions
      then Num.int_div successful_executions total_executions else 1
  end.

Definition invalid_words : list string :=
  ["error"; "exception"; "failed"; "null"].

Definition _is_empty_or_invalid_result (value : PyVal) : bool :=
  match value with
  | VNone => true
  | VList l => Nat.eqb (List.length l) 0
  | VDict d => Nat.eqb (List.length d) 0
  | VStr s =>
      String.eqb (Str.strip s) EmptyString ||
      Str.contains_any invalid_words (Str.lower s)
  | _ => num_test (fun x => Num.isnan x || Num.isinf x) value
  end.

Definition _calculate_empty_result_rate
    (analysis_result : UniversalAnalysisResult) : res Q :=
  let results := calculation_results analysis_result in
  if negb (py_truthy results) then Ok 1
  else
    total_results <- py_len results ;;
    items <- py_items results ;;
    let empty_results :=
      count_where (fun kv => _is_empty_or_invalid_result (snd kv)) items 0 in
    Ok (if Nat.ltb 0 total_results
        then Num.int_div empty_results total_results else 1).

Definition tolerance_default : pyfloat := Fin 0.01.

Definition _values_match (calculated expected : PyVal) (tolerance : pyfloat)
  : bool :=
  if negb (pytype_eqb (type_of calculated) (type_of expected)) &&
     negb (is_number calculated && is_number expected)
  then false
  else
    match as_num calculated, as_num expected with
    | Some c, Some e => Num.leb (Num.abs (Num.sub c e)) tolerance
    | _, _ =>
        match calculated, expected with
        | VStr c, VStr e =>
            String.eqb (Str.lower (Str.strip c)) (Str.lower (Str.strip e))
        | _, _ =>
            if is_list_or_dict calculated && is_list_or_dict expected
            then py_eq calculated expected
            else py_eq calculated expected
        end
    end.

Definition ratio_words : list string := ["rate"; "ratio"; "비율"; "율"].

(** The body of the loop over [numeric_results]. *)
Definition extreme_value_penalty (results : PyVal) (score : Q) (value : PyVal)
  : Q :=
  let score :=
    if num_test (fun x => Num.ltb x (Fin 0)) value &&
       Str.contains "count" (Repr.py_str results)
    then score - 0.2 else score in
  if num_test (fun x => Num.gtb x (Fin 10000000)) value
  then score - 0.1 else score.

(** The body of the loop over the items of the results. *)
Definition ratio_range_penalty (score : Q) (kv : string * PyVal) : Q :=
  if Str.contains_any ratio_words (Str.lower (fst kv)) then
    if num_test (fun x => Num.ltb x (Fin 0) || Num.gtb x (Fin 100)) (snd kv)
    then score - 0.3 else score
  else score.

Definition _calculate_consistency_score
    (analysis_result : UniversalAnalysisResult) : res Q :=
  let results := calculation_results analysis_result in
  let consistency_score := 1 in
  values <- py_values results ;;
  let numeric_results := filter is_number values in
  let consistency_score :=
    match numeric_results with
    | [] => consistency_score
    | _ => fold_left (extreme_value_penalty results) numeric_results
             consistency_score
    end in
  items <- py_items results ;;
  let consistency_score :=
    fold_left ratio_range_penalty items consistency_score in
  Ok (Num.max 0 consistency_score).

(** The loop of [_calculate_accuracy_rate]: the pair
    [(correct_results, total_comparisons)]. *)
Fixpoint compare_items (items : dict PyVal) (ground_truth : dict PyVal)
    (counts : nat * nat) : nat * nat :=
  match items with
  | [] => counts
  | (key, calculated_value) :: items' =>
      compare_items items' ground_truth
        (match dict_get key ground_truth with
         | Some expected_value =>
             ((if _values_match calculated_value expected_value
                    tolerance_default
               then S (fst counts) else fst counts),
              S (snd counts))
         | None => counts
         end)
  end.

Definition _calculate_accuracy_rate
    (analysis_result : UniversalAnalysisResult)
    (ground_truth : option (dict PyVal)) : res Q :=
  match ground_truth with
  | None => _calculate_consistency_score analysis_result
  | Some ground_truth =>
      items <- py_items (calculation_results analysis_result) ;;
      let '(correct_results, total_comparisons) :=
        compare_items items ground_truth (0%nat, 0%nat) in
      Ok (if Nat.ltb 0 total_comparisons
          then Num.int_div correct_results total_comparisons else 1)
  end.

Definition _determine_overall_pass (self : UniversalMongoDBEvaluator)
    (semantic_error_rate execution_success_rate empty_result_rate
       accuracy_rate : Q) : res bool :=
  t <- getitem (thresholds self) "semantic_error" ;;
  let semantic_pass := Num.leb (Fin semantic_error_rate) t in
  t <- getitem (thresholds self) "execution_success" ;;
  let execution_pass := Num.geb (Fin execution_success_rate) t in
  t <- getitem (thresholds self) "empty_result" ;;
  let empty_pass := Num.leb (Fin empty_result_rate) t in
  t <- getitem (thresholds self) "accuracy" ;;
  let accuracy_pass := Num.geb (Fin accuracy_rate) t in
  Ok (semantic_pass && execution_pass && empty_pass && accuracy_pass).

Definition evaluate (self : UniversalMongoDBEvaluator)
    (analysis_result : UniversalAnalysisResult)
    (ground_truth : option (dict PyVal)) : res EvaluationMetrics :=
  semantic_error_rate <- _calculate_semantic_error_rate analysis_result ;;
  let execution_success_rate :=
    _calculate_execution_success_rate analysis_result in
  empty_result_rate <- _calculate_empty_result_rate analysis_result ;;
  accuracy_rate <- _calculate_accuracy_rate analysis_result ground_truth ;;
  overall_pass <-
    _determine_overall_pass self semantic_error_rate execution_success_rate
      empty_result_rate accuracy_rate ;;
  Ok {| semantic_error_rate := semantic_error_rate;
        execution_success_rate := execution_success_rate;
        empty_result_rate := empty_result_rate;
        accuracy_rate := accuracy_rate;
        overall_pass := overall_pass |}.

(** [quick_evaluate]: [execution_logs or []] is the list itself, or the
    empty list when there is none. *)
Definition quick_evaluate (analysis_query : string)
    (mongodb_queries : list string) (calculation_results : PyVal)
    (execution_logs : option (list (dict PyVal)))
    (ground_truth : option (dict PyVal))
    (custom_thresholds : option (dict pyfloat)) : res EvaluationMetrics :=
  let analysis_result :=
    {| analysis_query := analysis_query;
       mongodb_queries := mongodb_queries;
       calculation_results := calculation_results;
       execution_logs :=
         match execution_logs with Some logs => logs | None => [] end |} in
  let evaluator := __init__ custom_thresholds in
  evaluate evaluator analysis_result ground_truth.

(** ** The quality checker of [integration_examples.py] *)

Record AnalysisQualityChecker : Type := {
  strict_thresholds : option (dict pyfloat)
}.

(** [AnalysisQualityChecker.__init__] *)
Definition checker_init (strict_mode : bool) : AnalysisQualityChecker :=
  {| strict_thresholds :=
       if strict_mode
       then Some [ ("semantic_error", Fin 0.05);
                   ("execution_success", Fin 0.95);
                   ("empty_result", Fin 0.1);
                   ("accuracy", Fin 0.95) ]
       else None |}.

(** [(self.strict_thresholds or {}).get(key, default)] *)
Definition threshold_or (self : AnalysisQualityChecker) (key : string)
    (default : pyfloat) : pyfloat :=
  match strict_thresholds self with
  | Some [] | None => default
  | Some thresholds =>
      match dict_get key thresholds with
      | Some t => t
      | None => default
      end
  end.

(** The list [issues] that [_get_recommendation] builds. *)
Definition recommendation_issues (self : AnalysisQualityChecker)
    (metrics : EvaluationMetrics) : list string :=
  let issues := [] in
  let issues :=
    if Num.gtb (Fin (semantic_error_rate metrics))
         (threshold_or self "semantic_error" (Fin 0.1))
    then (issues ++ ["쿼리 논리 검토"])%list else issues in
  let issues :=
    if Num.ltb (Fin (execution_success_rate metrics))
         (threshold_or self "execution_success" (Fin 0.8))
    then (issues ++ ["실행 환경 점검"])%list else issues in
  let issues :=
    if Num.gtb (Fin (empty_result_rate metrics))
         (threshold_or self "empty_result" (Fin 0.2))
    then (issues ++ ["데이터 존재 확인"])%list else issues in
  let issues :=
    if Num.ltb (Fin (accuracy_rate metrics))
         (threshold_or self "accuracy" (Fin 0.9))
    then (issues ++ ["계산 로직 검증"])%list else issues in
  issues.

Definition trust_message : string :=
  "✅ 분석 결과를 신뢰하고 사용할 수 있습니다.".

Definition _get_recommendation (self : AnalysisQualityChecker)
    (metrics : EvaluationMetrics) : string :=
  if overall_pass metrics then trust_message
  else "⚠️ 재검토 필요: " ++ Str.join ", " (recommendation_issues self metrics).

(** The metrics that [check_analysis_quality] computes with
    [quick_evaluate]; [execution_info or []] is passed for the logs.  (The
    mapping it returns also holds the time of the call and the rates
    formatted as percentages, which are left out.) *)
Definition check_analysis_quality_metrics (self : AnalysisQualityChecker)
    (user_query : string) (mongodb_queries : list string) (results : PyVal)
    (execution_info : option (list (dict PyVal))) : res EvaluationMetrics :=
  quick_evaluate user_query mongodb_queries results
    (Some (match execution_info with
           | Some [] | None => []
           | Some logs => logs
           end))
    None (strict_thresholds self).

(** ** Records, queries and notions used in the statements *)





(** Six negative counts: the penalties add up to 1.2 before the floor. *)
Definition record_negative_counts : UniversalAnalysisResult :=
  {| analysis_query := "counts per collection";
     mongodb_queries := [];
     calculation_results :=
       VDict [ ("a_count", VInt (-1)); ("b_count", VInt (-2));
               ("c_count", VInt (-3)); ("d_count", VInt (-4));
               ("e_count", VInt (-5)); ("f_count", VInt (-6)) ];
     execution_logs := [] |}.

(** The third analysis of [demo_various_analysis_types]. *)
Definition record_with_problems : UniversalAnalysisResult :=
  {| analysis_query := "활성 사용자 수 계산";
     mongodb_queries :=
       [ "db.users.find({'user_id': {'$ne': '$user_id'}})";
         "db.sessions.count({'invalid_field': true})" ];
     calculation_results :=
       VDict [ ("active_users", VInt (-10)); ("error_result", VNone);
               ("invalid_rate", VInt 150) ];
     execution_logs :=
       [ [ ("status", VStr "error"); ("message", VStr "Field not found") ];
         [ ("status", VStr "success") ] ] |}.

(** The first log entry of the third analysis of
    [demo_various_analysis_types], and the one of the first simulated
    attempt. *)
Definition failed_logs : list (dict PyVal) :=
  [ [ ("status", VStr "error"); ("message", VStr "Field not found") ];
    [ ("status", VStr "error") ] ].

Definition record_failed_logs : UniversalAnalysisResult :=
  {| analysis_query := "고객 생애가치(LTV) 분석";
     mongodb_queries := [];
     calculation_results := VDict [("ltv", VInt 100)];
     execution_logs := failed_logs |}.

(** Scenario C of the specification. *)
Definition record_rate_150 : UniversalAnalysisResult :=
  {| analysis_query := "운영자 연결 비율을 분석해줘";
     mongodb_queries :=
       [ "db.care_313.find({'message': 'Received retrieval request'})";
         "db.care_313.find({'content': {'$regex': '운영자 연결'}})" ];
     calculation_results := VDict [("rate", VInt 150)];
     execution_logs := [] |}.

(** The record of [quick_start_example], around one executed query. *)
Definition record_of_query (query : string) : UniversalAnalysisResult :=
  {| analysis_query := "일일 활성 사용자 수 분석";
     mongodb_queries := [query];
     calculation_results := VDict [("daily_active_users", VInt 1847)];
     execution_logs := [] |}.

(** The query that [integration_examples.py] marks as a semantic error. *)
Definition ne_self_comparison : string :=
  "db.users.find({'user_id': {'$ne': '$user_id'}})".

(** A threshold of nine digits that are not all 9. *)
Definition nine_digit_threshold : string :=
  "db.orders.find({'$where': 'this.total > 123456789'})".

(** The grouping query of [example_usage]. *)
Definition single_key_grouping : string :=
  "db.care_313.aggregate([{'$group': {'_id': '$user_id'}}])".

(** The same pipeline written over two lines. *)
Definition two_line_grouping : string :=
  "db.care_313.aggregate([{'$group':" ++ Repr.chr 10 ++
  "  {'_id': '$user_id'}}])".

(** Scenario B of the specification: the third analysis of
    [demo_various_analysis_types], reduced to its first result. *)
Definition record_active_users : UniversalAnalysisResult :=
  {| analysis_query := "활성 사용자 수 계산";
     mongodb_queries := ["db.sessions.count({'invalid_field': true})"];
     calculation_results := VDict [("active_users", VInt (-10))];
     execution_logs := [] |}.

Definition record_active_count : UniversalAnalysisResult :=
  {| analysis_query := "활성 사용자 수 계산";
     mongodb_queries := ["db.sessions.count({'invalid_field': true})"];
     calculation_results := VDict [("active_count", VInt (-10))];
     execution_logs := [] |}.

(** The entries of the results whose key is in the reference, and those
    among them whose value matches the expected one. *)
Definition compared_entries (items ground_truth : dict PyVal) : dict PyVal :=
  filter (fun kv => has_key (fst kv) ground_truth) items.

Definition matching_entries (items ground_truth : dict PyVal) : dict PyVal :=
  filter (fun kv =>
            match dict_get (fst kv) ground_truth with
            | Some expected => _values_match (snd kv) expected tolerance_default
            | None => false
            end) items.


(** The errors of the built-in operations on a value of the wrong type. *)
Definition builtin_error (e : exn) : Prop :=
  exn_name e = "AttributeError" \/ exn_name e = "TypeError".



(** ** Notions used in the further properties *)

(** Some pattern of the catalogue matches the query. *)
Definition pattern_flag (query : string) : bool :=
  existsb (fun pattern => Re.search pattern query) logical_error_patterns.

Definition is_negative (value : PyVal) : bool :=
  num_test (fun x => Num.ltb x (Fin 0)) value.

Definition is_over_100 (value : PyVal) : bool :=
  num_test (fun x => Num.gtb x (Fin 100)) value.

(** What the cross-check of a query against the results answers when the
    results are the mapping [items] and the question is [text]. *)
Definition mismatch_flag (items : dict PyVal) (text query : string) : bool :=
  (Str.contains "count" (Str.lower query) &&
   existsb (fun kv => is_negative (snd kv)) items) ||
  (Str.contains_any rate_words (Str.lower text) &&
   existsb (fun kv => is_over_100 (snd kv)) items).

(** Whether the program flags [query], on results that are [items]. *)
Definition flagged (items : dict PyVal) (text query : string) : bool :=
  pattern_flag query || mismatch_flag items text query.

(** The fourth analysis of [demo_various_analysis_types], reduced to one
    rate and one note. *)
Definition record_conversion_rate : UniversalAnalysisResult :=
  {| analysis_query := "사용자 참여도와 전환율 종합 분석";
     mongodb_queries := [];
     calculation_results :=
       VDict [("conversion_rate", VFloat (Fin 3.45)); ("note", VStr "ok")];
     execution_logs := [] |}.






(** [any(test(c) for c in s)] *)
Fixpoint any_char (test : ascii -> bool) (s : string) : bool :=
  match s with
  | EmptyString => false
  | String a s' => test a || any_char test s'
  end.

(** Two states of the captures that hold the same texts up to letter
    case. *)
Definition caps_ci (st st' : Re.caps) : Prop :=
  option_map Str.lower (Re.opened st) = option_map Str.lower (Re.opened st') /\
  option_map Str.lower (Re.group1 st) = option_map Str.lower (Re.group1 st').

(** One of the characters ! = < > $. *)
Definition is_operator_char (a : ascii) : bool := Repr.has_char a "!=<>$".

(** A position of a pattern that has to read a character of the class. *)
Definition requires (c : Re.cclass) (item : Re.item) : Prop :=
  item = Re.One c \/ exists n, item = Re.AtLeast (S n) c.

(** The keys are pairwise different. *)
Fixpoint distinct (keys : list string) : bool :=
  match keys with
  | [] => true
  | key :: keys' => negb (existsb (String.eqb key) keys') && distinct keys'
  end.

(** Every mapping inside the value has pairwise different keys, as a
    Python dict has. *)
Fixpoint well_keyed (v : PyVal) : bool :=
  match v with
  | VList l => forallb well_keyed l
  | VDict d =>
      distinct (map fst d) && forallb (fun kv => well_keyed (snd kv)) d
  | _ => true
  end.

(** No infinity and no NaN inside the value. *)
Fixpoint all_finite (v : PyVal) : bool :=
  match v with
  | VFloat (Fin _) => true
  | VFloat _ => false
  | VList l => forallb all_finite l
  | VDict d => forallb (fun kv => all_finite (snd kv)) d
  | _ => true
  end.

(** The number of elements of [xs] that pass [test]. *)
Definition count_of {A : Type} (test : A -> bool) (xs : list A) : nat :=
  List.length (filter test xs).

(** * Properties *)

(** ** The definitions on the cases of the program's own examples *)

Example lower_mixed : Str.lower "Growth RATE 율" = "growth rate 율".
Proof. reflexivity. Qed.

Example strip_both : Str.strip "  a b " = "a b".
Proof. reflexivity. Qed.

Example contains_hangul : Str.contains "율" "전환율 분석" = true.
Proof. reflexivity. Qed.

Example repr_results :
  Repr.py_str (VDict [("active_users", VInt (-10)); ("rate", VFloat (Fin 33.33))])
  = "{'active_users': -10, 'rate': 33.33}".
Proof. reflexivity. Qed.

Example search_self_comparison :
  Re.search self_comparison "user_id != user_id" = true.
Proof. reflexivity. Qed.

Example search_count_zero_exists :
  Re.search count_zero_exists "COUNT(x) == 0 and EXISTS(x)" = true.
Proof. reflexivity. Qed.

Example search_empty_match :
  Re.search empty_match "[{'$match': { }}]" = true.
Proof. reflexivity. Qed.

(** Scenario D of the specification: [quick_start_example] without its
    query. *)
Example quick_start_metrics :
  quick_evaluate "일일 활성 사용자 수 분석" []
    (VDict [("daily_active_users", VInt 1847)]) None None None
  = Ok {| semantic_error_rate := 0;
          execution_success_rate := 1;
          empty_result_rate := 0;
          accuracy_rate := 1;
          overall_pass := true |}.
Proof. vm_compute. reflexivity. Qed.

(** [example_usage]: the grouping query is flagged, one query out of
    three, and the verdict is a failure under the default thresholds. *)
Example example_usage_metrics :
  exists m,
    quick_evaluate
      "care_313 컬렉션에서 사용자 수, 챗 수, 운영자 연결 비율을 분석해줘"
      [ "db.care_313.find({'message': 'Received retrieval request'})";
        "db.care_313.aggregate([{'$group': {'_id': '$user_id'}}])";
        "db.care_313.find({'content': {'$regex': '운영자 연결'}})" ]
      (VDict [ ("user_count", VInt 3); ("chat_count", VInt 8);
               ("operator_connection_rate", VFloat (Fin 33.33)) ])
      (Some [ [ ("status", VStr "success"); ("query_index", VInt 0);
                ("execution_time", VFloat (Fin 0.1)) ];
              [ ("status", VStr "success"); ("query_index", VInt 1);
                ("execution_time", VFloat (Fin 0.2)) ];
              [ ("status", VStr "success"); ("query_index", VInt 2);
                ("execution_time", VFloat (Fin 0.1)) ] ])
      None None = Ok m /\
    semantic_error_rate m == 1 # 3 /\
    execution_success_rate m == 1 /\
    empty_result_rate m == 0 /\
    accuracy_rate m == 1 /\
    overall_pass m = false.
Proof.
  eexists. split; [vm_compute; reflexivity|]. repeat split.
Qed.

(** ** Rationals *)

Lemma inject_nat_pos (b : nat) : (0 < b)%nat -> 0 < inject_Z (Z.of_nat b).
Proof. intros H. change 0 with (inject_Z 0). rewrite <- Zlt_Qlt. lia. Qed.


Lemma int_div_same (b : nat) : (0 < b)%nat -> Num.int_div b b == 1.
Proof.
  intros Hb. unfold Num.int_div. apply Qmult_inv_r.
  intros H. apply inject_nat_pos in Hb. rewrite H in Hb. discriminate.
Qed.





(** ** The counting loops *)


Lemma count_where_all {A : Type} (test : A -> bool) (xs : list A) (n : nat) :
  (forall x, In x xs -> test x = true) ->
  count_where test xs n = (n + List.length xs)%nat.
Proof.
  revert n. induction xs as [|x xs IH]; intros n H; simpl; [lia|].
  rewrite (H x (or_introl eq_refl)). rewrite IH; [lia|].
  intros y Hy. apply H. now right.
Qed.


Lemma count_whereM_all {A : Type} (test : A -> res bool) (xs : list A)
    (n : nat) :
  (forall x, In x xs -> test x = Ok true) ->
  count_whereM test xs n = Ok (n + List.length xs)%nat.
Proof.
  revert n. induction xs as [|x xs IH]; intros n H; simpl.
  - f_equal. lia.
  - rewrite (H x (or_introl eq_refl)). simpl. rewrite IH.
    + f_equal. lia.
    + intros y Hy. apply H. now right.
Qed.

Lemma count_whereM_none {A : Type} (test : A -> res bool) (xs : list A)
    (n : nat) :
  (forall x, In x xs -> test x = Ok false) ->
  count_whereM test xs n = Ok n.
Proof.
  revert n. induction xs as [|x xs IH]; intros n H; simpl; [reflexivity|].
  rewrite (H x (or_introl eq_refl)). simpl. apply IH.
  intros y Hy. apply H. now right.
Qed.


(** ** The error monad *)

Lemma bind_Ok {A B : Type} (c : res A) (k : A -> res B) (b : B) :
  bind c k = Ok b -> exists a, c = Ok a /\ k a = Ok b.
Proof. destruct c as [a|e]; simpl; [eauto | discriminate]. Qed.

Ltac bind_inv H :=
  let a := fresh "a" in
  let E := fresh "E" in
  apply bind_Ok in H; destruct H as (a & E & H).

Ltac case_ifs :=
  repeat match goal with
         | |- context [if ?b then _ else _] => destruct b eqn:?
         end.

(** ** Each rate lies between 0 and 1 *)










(** What [evaluate] returns is what the five steps return. *)
Lemma evaluate_Ok (self : UniversalMongoDBEvaluator)
    (r : UniversalAnalysisResult) (g : option (dict PyVal))
    (m : EvaluationMetrics) :
  evaluate self r g = Ok m ->
  _calculate_semantic_error_rate r = Ok (semantic_error_rate m) /\
  _calculate_execution_success_rate r = execution_success_rate m /\
  _calculate_empty_result_rate r = Ok (empty_result_rate m) /\
  _calculate_accuracy_rate r g = Ok (accuracy_rate m) /\
  _determine_overall_pass self (semantic_error_rate m)
    (execution_success_rate m) (empty_result_rate m) (accuracy_rate m)
  = Ok (overall_pass m).
Proof.
  unfold evaluate. intros H.
  bind_inv H. bind_inv H. bind_inv H. bind_inv H.
  injection H as <-. simpl. auto.
Qed.

(** ** [evaluate] returns on well-formed input *)







(** ** The verdict *)





(** ** Execution logs *)

(** C10. A log entry whose status is not "success" still counts as
    successful when it has no "error" field; so for non-empty execution
    logs in which no entry has an "error" field the execution success rate
    is 1, even if every status marks a failure. *)
Theorem execution_success_without_error_field :
  forall (r : UniversalAnalysisResult),
    execution_logs r <> [] ->
    (forall log, In log (execution_logs r) -> dict_get "error" log = None) ->
    (forall log, In log (execution_logs r) -> log_succeeded log = true) /\
    _calculate_execution_success_rate r == 1 /\
    (forall self g m, evaluate self r g = Ok m ->
                      execution_success_rate m == 1).
Proof.
  intros r Hne Hno.
  assert (Hall : forall log, In log (execution_logs r) ->
                             log_succeeded log = true).
  { intros log Hin. unfold log_succeeded. rewrite (Hno log Hin).
    apply orb_true_r. }
  assert (Hrate : _calculate_execution_success_rate r == 1).
  { unfold _calculate_execution_success_rate.
    destruct (execution_logs r) as [|log logs] eqn:E; [congruence|].
    rewrite (count_where_all log_succeeded (log :: logs) 0 Hall).
    simpl. apply int_div_same. lia. }
  repeat split; try assumption.
  intros self g m H. apply evaluate_Ok in H.
  destruct H as (_ & <- & _). exact Hrate.
Qed.

Lemma execution_success_without_error_field_witness :
  (forall log, In log failed_logs -> log_succeeded log = true) /\
  _calculate_execution_success_rate record_failed_logs == 1 /\
  (forall self g m, evaluate self record_failed_logs g = Ok m ->
                    execution_success_rate m == 1).
Proof.
  apply (execution_success_without_error_field record_failed_logs).
  - discriminate.
  - simpl. intros log [<-|[<-|[]]]; reflexivity.
Defined.

(** ** Rate keywords and values above 100 *)

Lemma starts_with_lower (p s : string) :
  Str.starts_with p s = true ->
  Str.starts_with (Str.lower p) (Str.lower s) = true.
Proof.
  revert s. induction p as [|a p IH]; intros s H; [reflexivity|].
  destruct s as [|b s]; simpl in *; [discriminate|].
  apply andb_true_iff in H. destruct H as [Hab Hps].
  apply Ascii.eqb_eq in Hab. subst b.
  rewrite Ascii.eqb_refl. simpl. now apply IH.
Qed.

Lemma contains_lower (p s : string) :
  Str.contains p s = true ->
  Str.contains (Str.lower p) (Str.lower s) = true.
Proof.
  induction s as [|b s IH]; simpl; intros H.
  - rewrite orb_false_r in *. now apply (starts_with_lower p EmptyString).
  - apply orb_true_iff in H. apply orb_true_iff. destruct H as [H|H].
    + left. now apply (starts_with_lower p (String b s)).
    + right. now apply IH.
Qed.

Lemma rate_words_lower (word : string) :
  In word rate_words -> Str.lower word = word.
Proof. simpl. intros [<-|[<-|[<-|[<-|[]]]]]; reflexivity. Qed.

Lemma contains_any_rate_word (text : string) :
  (exists word, In word rate_words /\ Str.contains word text = true) ->
  Str.contains_any rate_words (Str.lower text) = true.
Proof.
  intros (word & Hin & Hc). unfold Str.contains_any.
  apply existsb_exists. exists word. split; [exact Hin|].
  rewrite <- (rate_words_lower word Hin). now apply contains_lower.
Qed.

Lemma mismatch_rate_over_100 (query : string) (r : UniversalAnalysisResult)
    (items : dict PyVal) :
  calculation_results r = VDict items ->
  Str.contains_any rate_words (Str.lower (analysis_query r)) = true ->
  existsb (fun kv => num_test (fun x => Num.gtb x (Fin 100)) (snd kv)) items
  = true ->
  _check_result_query_mismatch query r = Ok true.
Proof.
  intros Hr Hw Hbig. unfold _check_result_query_mismatch.
  rewrite Hr, Hw. unfold py_items, bind. rewrite Hbig.
  case_ifs; reflexivity.
Qed.

(** C8. If the natural-language query text contains one of the keywords
    "비율", "율", "percent", "rate" and some numeric value of the results
    exceeds 100, every executed query is flagged as semantically erroneous
    whatever its content, so with non-empty executed queries the semantic
    error rate is 1. *)
Theorem rate_keyword_flags_every_query :
  forall (r : UniversalAnalysisResult) (items : dict PyVal),
    calculation_results r = VDict items ->
    (exists word, In word rate_words /\
                  Str.contains word (analysis_query r) = true) ->
    (exists key value x, In (key, value) items /\ as_num value = Some x /\
                         Num.gtb x (Fin 100) = true) ->
    (forall query, _has_semantic_error query r = Ok true) /\
    (mongodb_queries r <> [] ->
     (exists rate, _calculate_semantic_error_rate r = Ok rate /\ rate == 1) /\
     (forall self g m, evaluate self r g = Ok m ->
                       semantic_error_rate m == 1)).
Proof.
  intros r items Hr Hword (key & value & x & Hin & Hnum & Hgt).
  assert (Hflag : forall query, _has_semantic_error query r = Ok true).
  { intros query. unfold _has_semantic_error.
    destruct (existsb _ logical_error_patterns); [reflexivity|].
    apply (mismatch_rate_over_100 query r items Hr).
    - now apply contains_any_rate_word.
    - apply existsb_exists. exists (key, value). split; [exact Hin|].
      unfold num_test. simpl. now rewrite Hnum. }
  split; [exact Hflag|]. intros Hne.
  assert (Hrate : exists rate,
             _calculate_semantic_error_rate r = Ok rate /\ rate == 1).
  { unfold _calculate_semantic_error_rate.
    destruct (mongodb_queries r) as [|query queries]; [congruence|].
    rewrite (count_whereM_all (fun query => _has_semantic_error query r)
               (query :: queries) 0 (fun x _ => Hflag x)).
    eexists. split; [reflexivity|]. simpl. apply int_div_same. lia. }
  split; [exact Hrate|].
  intros self g m H. apply evaluate_Ok in H. destruct H as (Hs & _).
  destruct Hrate as (rate & Hr1 & Hr2). congruence.
Qed.

Lemma rate_keyword_flags_every_query_witness :
  (forall query, _has_semantic_error query record_rate_150 = Ok true) /\
  (mongodb_queries record_rate_150 <> [] ->
   (exists rate,
      _calculate_semantic_error_rate record_rate_150 = Ok rate /\ rate == 1) /\
   (forall self g m, evaluate self record_rate_150 g = Ok m ->
                     semantic_error_rate m == 1)).
Proof.
  apply (rate_keyword_flags_every_query record_rate_150 [("rate", VInt 150)]).
  - reflexivity.
  - exists "비율". split; [simpl; auto | reflexivity].
  - exists "rate", (VInt 150), (Num.of_Z 150).
    split; [simpl; auto | split; reflexivity].
Defined.

(** ** The matcher on texts of a known shape *)

Lemma search_app (p : Re.regex) (pre s : string) :
  Re.match_here p Re.no_caps s = true -> Re.search p (pre ++ s) = true.
Proof.
  intros H. induction pre as [|a pre IH]; simpl.
  - destruct s; simpl; rewrite H; reflexivity.
  - destruct (Re.match_here p Re.no_caps (String a (pre ++ s)));
      [reflexivity | exact IH].
Qed.

Lemma class_match_lit (c : ascii) : Re.class_match (Re.Lit c) c = true.
Proof. simpl. apply Ascii.eqb_refl. Qed.

(** Outside a group, reading a character leaves the captures as they are. *)
Lemma push_no_caps (a : ascii) : Re.push a Re.no_caps = Re.no_caps.
Proof. reflexivity. Qed.

Lemma match_lits (w : string) (p : Re.regex) (s : string) :
  Re.match_here p Re.no_caps s = true ->
  Re.match_here (Re.lits w ++ p)%list Re.no_caps (w ++ s) = true.
Proof.
  intros H. induction w as [|c w IH]; [exact H|].
  change (Re.match_here (Re.One (Re.Lit c) :: (Re.lits w ++ p)%list) Re.no_caps
            (String c (w ++ s)) = true).
  cbn [Re.match_here]. rewrite class_match_lit, push_no_caps. exact IH.
Qed.

Lemma repeat_run (k : Re.caps -> string -> bool) (c : Re.cclass) (xs : string)
    (n : nat) (s : string) :
  Str.all (Re.class_match c) xs = true ->
  (n <= String.length xs)%nat ->
  k Re.no_caps s = true ->
  Re.repeat k c n Re.no_caps (xs ++ s) = true.
Proof.
  revert n. induction xs as [|x xs IH]; intros n Hall Hn Hk.
  - simpl in Hn. assert (n = 0%nat) as -> by lia. simpl.
    destruct s as [|a s]; [exact Hk|]. cbn [Re.repeat].
    match goal with
    | |- (if ?b then _ else _) = _ => destruct b; [reflexivity | exact Hk]
    end.
  - simpl in Hall. apply andb_true_iff in Hall. destruct Hall as [Hx Hxs].
    change (Re.repeat k c n Re.no_caps (String x (xs ++ s)) = true).
    cbn [Re.repeat]. rewrite Hx, push_no_caps.
    rewrite (IH (pred n) Hxs); [reflexivity | simpl in Hn; lia | exact Hk].
Qed.

Lemma match_repeat (c : Re.cclass) (n : nat) (p : Re.regex) (xs s : string) :
  Str.all (Re.class_match c) xs = true ->
  (n <= String.length xs)%nat ->
  Re.match_here p Re.no_caps s = true ->
  Re.match_here (Re.AtLeast n c :: p) Re.no_caps (xs ++ s) = true.
Proof. intros. cbn [Re.match_here]. now apply repeat_run. Qed.

Lemma replicate_length (n : nat) (c : ascii) :
  String.length (Str.replicate n c) = n.
Proof. induction n; simpl; congruence. Qed.

Lemma replicate_all (n : nat) (c : ascii) :
  Str.all (Re.class_match (Re.Lit c)) (Str.replicate n c) = true.
Proof.
  induction n; [reflexivity|].
  change (Re.class_match (Re.Lit c) c &&
          Str.all (Re.class_match (Re.Lit c)) (Str.replicate n c) = true).
  now rewrite class_match_lit, IHn.
Qed.

Lemma flagged_by_pattern (pattern : Re.regex) (query : string)
    (r : UniversalAnalysisResult) :
  In pattern logical_error_patterns ->
  Re.search pattern query = true ->
  _has_semantic_error query r = Ok true.
Proof.
  intros Hin Hs. unfold _has_semantic_error.
  replace (existsb (fun pattern => Re.search pattern query)
             logical_error_patterns) with true; [reflexivity|].
  symmetry. apply existsb_exists. now exists pattern.
Qed.

(** ** The pattern catalogue *)

(** C1. On a record whose executed queries are the single query
    [db.users.find({'user_id': {'$ne': '$user_id'}})] and whose results and
    query text trigger no other check, the program does not flag the
    query: no pattern of the catalogue matches it, and the semantic error
    rate is 0, not 1. *)
Theorem ne_self_comparison_not_flagged :
  forall (r : UniversalAnalysisResult),
    mongodb_queries r = [ne_self_comparison] ->
    _check_result_query_mismatch ne_self_comparison r = Ok false ->
    Re.search self_comparison ne_self_comparison = false /\
    _has_semantic_error ne_self_comparison r = Ok false /\
    (exists rate, _calculate_semantic_error_rate r = Ok rate /\ rate == 0) /\
    (forall self g m, evaluate self r g = Ok m ->
                      semantic_error_rate m == 0 /\
                      ~ semantic_error_rate m == 1).
Proof.
  intros r Hq Hm.
  assert (Hflag : _has_semantic_error ne_self_comparison r = Ok false).
  { unfold _has_semantic_error.
    replace (existsb (fun pattern => Re.search pattern ne_self_comparison)
               logical_error_patterns) with false by (vm_compute; reflexivity).
    exact Hm. }
  assert (Hrate : _calculate_semantic_error_rate r = Ok (Num.int_div 0 1)).
  { unfold _calculate_semantic_error_rate. rewrite Hq.
    cbn [count_whereM]. rewrite Hflag. reflexivity. }
  split; [vm_compute; reflexivity|]. split; [exact Hflag|].
  split; [eexists; split; [exact Hrate | reflexivity]|].
  intros self g m H. apply evaluate_Ok in H. destruct H as (Hs & _).
  rewrite Hrate in Hs. injection Hs as <-.
  split; [reflexivity | discriminate].
Qed.

Lemma ne_self_comparison_not_flagged_witness :
  Re.search self_comparison ne_self_comparison = false /\
  _has_semantic_error ne_self_comparison (record_of_query ne_self_comparison)
  = Ok false /\
  (exists rate,
     _calculate_semantic_error_rate (record_of_query ne_self_comparison)
     = Ok rate /\ rate == 0) /\
  (forall self g m,
     evaluate self (record_of_query ne_self_comparison) g = Ok m ->
     semantic_error_rate m == 0 /\ ~ semantic_error_rate m == 1).
Proof.
  apply (ne_self_comparison_not_flagged (record_of_query ne_self_comparison)).
  - reflexivity.
  - vm_compute. reflexivity.
Defined.

(** C5, as stated, fails: a query with a greater-than sign followed by the
    nine-digit literal 123456789 is matched neither by the pattern for
    implausibly large thresholds nor by any other check. *)
Lemma nine_digit_threshold_not_flagged :
  nine_digit_threshold
  = "db.orders.find({'$where': 'this.total " ++ ">" ++ " " ++ "123456789"
    ++ "'})" /\
  Str.all Str.is_digit "123456789" = true /\
  Re.search huge_number nine_digit_threshold = false /\
  _has_semantic_error nine_digit_threshold
    (record_of_query nine_digit_threshold) = Ok false.
Proof. repeat split; vm_compute; reflexivity. Qed.

(** C5, amended. Every query string that contains a greater-than sign
    followed, after optional whitespace, by eight or more consecutive
    digits 9 is classified as semantically erroneous by the pattern for
    implausibly large thresholds. *)
Theorem eight_nines_flagged :
  forall (pre ws post : string) (n : nat) (r : UniversalAnalysisResult),
    Str.all Str.is_space ws = true ->
    (8 <= n)%nat ->
    Re.search huge_number (pre ++ ">" ++ ws ++ Str.replicate n "9" ++ post)
    = true /\
    _has_semantic_error (pre ++ ">" ++ ws ++ Str.replicate n "9" ++ post) r
    = Ok true.
Proof.
  intros pre ws post n r Hws Hn.
  assert (Hs : Re.search huge_number
                 (pre ++ ">" ++ ws ++ Str.replicate n "9" ++ post) = true).
  { apply search_app.
    apply (match_lits ">" [Re.star Re.Space; Re.AtLeast 8 (Re.Lit "9")]).
    apply match_repeat; [exact Hws | apply Nat.le_0_l |].
    apply match_repeat;
      [apply replicate_all | now rewrite replicate_length | reflexivity]. }
  split; [exact Hs|].
  apply (flagged_by_pattern huge_number); [simpl; auto | exact Hs].
Qed.

Lemma eight_nines_flagged_witness :
  Re.search huge_number "db.orders.find({'$where': 'this.total > 99999999'})"
  = true /\
  _has_semantic_error "db.orders.find({'$where': 'this.total > 99999999'})"
    (record_of_query "db.orders.find({'$where': 'this.total > 99999999'})")
  = Ok true.
Proof.
  apply (eight_nines_flagged "db.orders.find({'$where': 'this.total " " "
           "'})" 8).
  - reflexivity.
  - apply Nat.le_refl.
Defined.

(** C9, as stated, fails: in a query written over two lines, "$group" is
    followed by two occurrences of "_id", yet the pattern does not match,
    since [.] does not cross a line feed; the query is not flagged. *)
Lemma two_line_grouping_not_flagged :
  two_line_grouping
  = "db.care_313.aggregate([{'" ++ "$group" ++ ("':" ++ Repr.chr 10 ++ "  {'")
    ++ "_id" ++ "': '$user" ++ "_id" ++ "'}}])" /\
  Re.search duplicate_grouping two_line_grouping = false /\
  _has_semantic_error two_line_grouping (record_of_query two_line_grouping)
  = Ok false.
Proof. repeat split; vm_compute; reflexivity. Qed.

(** C9, amended. The duplicate-grouping pattern flags any query in which
    "$group" is followed, with no line feed in between, by two occurrences
    of "_id"; in particular the ordinary single-key grouping query
    [db.care_313.aggregate([{'$group': {'_id': '$user_id'}}])] is
    classified as semantically erroneous, because the field name
    "user_id" itself contains "_id". *)
Theorem group_with_two_ids_flagged :
  forall (pre a b post : string) (r : UniversalAnalysisResult),
    Str.single_line a = true ->
    Str.single_line b = true ->
    (Re.search duplicate_grouping
       (pre ++ "$group" ++ a ++ "_id" ++ b ++ "_id" ++ post) = true /\
     _has_semantic_error
       (pre ++ "$group" ++ a ++ "_id" ++ b ++ "_id" ++ post) r = Ok true) /\
    (Re.search duplicate_grouping single_key_grouping = true /\
     _has_semantic_error single_key_grouping r = Ok true).
Proof.
  intros pre a b post r Ha Hb.
  assert (Hs : forall pre a b post,
             Str.single_line a = true -> Str.single_line b = true ->
             Re.search duplicate_grouping
               (pre ++ "$group" ++ a ++ "_id" ++ b ++ "_id" ++ post) = true).
  { clear. intros pre a b post Ha Hb. apply search_app.
    apply (match_lits "$group"
             ([Re.star Re.Dot] ++ Re.lits "_id" ++ [Re.star Re.Dot] ++
              Re.lits "_id")%list).
    apply match_repeat; [exact Ha | apply Nat.le_0_l |].
    apply (match_lits "_id" ([Re.star Re.Dot] ++ Re.lits "_id")%list).
    apply match_repeat; [exact Hb | apply Nat.le_0_l |].
    apply (match_lits "_id" []). reflexivity. }
  assert (He : Re.search duplicate_grouping single_key_grouping = true).
  { apply (Hs "db.care_313.aggregate([{'" "': {'" "': '$user" "'}}])");
      reflexivity. }
  split; split.
  - now apply Hs.
  - apply (flagged_by_pattern duplicate_grouping); [simpl; auto 6|].
    now apply Hs.
  - exact He.
  - apply (flagged_by_pattern duplicate_grouping); [simpl; auto 6 | exact He].
Qed.

Lemma group_with_two_ids_flagged_witness :
  (Re.search duplicate_grouping
     ("db.events.aggregate([{'" ++ "$group" ++ "': {'" ++ "_id" ++
      "': '$user" ++ "_id" ++ "', 'engagement_score': {'$avg': '$score'}}}])")
   = true /\
   _has_semantic_error
     ("db.events.aggregate([{'" ++ "$group" ++ "': {'" ++ "_id" ++
      "': '$user" ++ "_id" ++ "', 'engagement_score': {'$avg': '$score'}}}])")
     (record_of_query single_key_grouping) = Ok true) /\
  (Re.search duplicate_grouping single_key_grouping = true /\
   _has_semantic_error single_key_grouping
     (record_of_query single_key_grouping) = Ok true).
Proof.
  apply (group_with_two_ids_flagged "db.events.aggregate([{'" "': {'"
           "': '$user" "', 'engagement_score': {'$avg': '$score'}}}])");
    reflexivity.
Defined.

(** ** The consistency score *)

Lemma negative_int_ltb (z : Z) :
  (z < 0)%Z -> Num.ltb (Num.of_Z z) (Fin 0) = true.
Proof.
  intros Hz. unfold Num.ltb, Num.of_Z, Num.Qlt_bool, Qle_bool. simpl.
  apply negb_true_iff. apply Z.leb_gt. lia.
Qed.

Lemma negative_int_gtb (z : Z) :
  (z < 0)%Z -> Num.gtb (Num.of_Z z) (Fin 10000000) = false.
Proof.
  intros Hz. unfold Num.gtb, Num.ltb, Num.of_Z, Num.Qlt_bool, Qle_bool. simpl.
  apply negb_false_iff. apply Z.leb_le. lia.
Qed.

(** The score of results that hold one negative integer under a name
    without ratio keyword. *)
Lemma consistency_score_one_negative (r : UniversalAnalysisResult)
    (key : string) (z : Z) :
  calculation_results r = VDict [(key, VInt z)] ->
  (z < 0)%Z ->
  Str.contains_any ratio_words (Str.lower key) = false ->
  _calculate_consistency_score r
  = Ok (Num.max 0
          (if Str.contains "count" (Repr.py_str (calculation_results r))
           then 1 - 0.2 else 1)).
Proof.
  intros Hr Hz Hkey. unfold _calculate_consistency_score.
  rewrite Hr. unfold py_values, py_items, bind.
  cbn [map snd filter is_number as_num fold_left].
  unfold extreme_value_penalty, ratio_range_penalty, num_test.
  cbn [as_num fst snd]. rewrite Hkey.
  rewrite (negative_int_ltb z Hz), (negative_int_gtb z Hz).
  reflexivity.
Qed.

(** C4, as stated, fails: with results [{"active_users": -10}] and no
    reference the accuracy rate is 1, not 0.8; the text of the results
    does not contain "count", so the penalty of 0.2 is not subtracted. *)
Lemma active_users_not_penalised :
  Str.contains "count"
    (Repr.py_str (calculation_results record_active_users)) = false /\
  exists m,
    evaluate (__init__ None) record_active_users None = Ok m /\
    accuracy_rate m == 1 /\
    ~ accuracy_rate m == 0.8.
Proof.
  split; [reflexivity|]. eexists.
  split; [vm_compute; reflexivity|]. split; [reflexivity | discriminate].
Qed.

(** C4, amended. For a record with results [{"active_users": -10}] and no
    reference, the text of the results does not contain "count", no
    penalty is subtracted and the accuracy rate is 1; for results that
    hold one negative integer under a name without ratio keyword, the
    penalty of 0.2 is subtracted, and the accuracy rate is 0.8, exactly
    when the text of the results contains "count". *)
Theorem negative_field_penalty_requires_count :
  forall (r : UniversalAnalysisResult),
    (calculation_results r = VDict [("active_users", VInt (-10))] ->
     exists a, _calculate_accuracy_rate r None = Ok a /\ a == 1) /\
    (forall key z,
       calculation_results r = VDict [(key, VInt z)] ->
       (z < 0)%Z ->
       Str.contains_any ratio_words (Str.lower key) = false ->
       exists a,
         _calculate_accuracy_rate r None = Ok a /\
         a == (if Str.contains "count" (Repr.py_str (calculation_results r))
               then 0.8 else 1)) /\
    (forall self m,
       evaluate self r None = Ok m ->
       _calculate_accuracy_rate r None = Ok (accuracy_rate m)).
Proof.
  intros r.
  assert (Hgen : forall key z,
             calculation_results r = VDict [(key, VInt z)] ->
             (z < 0)%Z ->
             Str.contains_any ratio_words (Str.lower key) = false ->
             exists a,
               _calculate_accuracy_rate r None = Ok a /\
               a == (if Str.contains "count"
                          (Repr.py_str (calculation_results r))
                     then 0.8 else 1)).
  { intros key z Hr Hz Hkey. eexists. split.
    - exact (consistency_score_one_negative r key z Hr Hz Hkey).
    - destruct (Str.contains "count" (Repr.py_str (calculation_results r)));
        reflexivity. }
  split; [|split; [exact Hgen|]].
  - intros Hr.
    destruct (Hgen "active_users" (-10)%Z Hr) as (a & Ha & Hq);
      [lia | reflexivity |].
    exists a. split; [exact Ha|]. rewrite Hq, Hr. reflexivity.
  - intros self m H. apply evaluate_Ok in H. tauto.
Qed.

Lemma negative_field_penalty_requires_count_witness :
  (exists a,
     _calculate_accuracy_rate record_active_users None = Ok a /\ a == 1) /\
  (exists a,
     _calculate_accuracy_rate record_active_count None = Ok a /\ a == 0.8).
Proof.
  split.
  - apply (negative_field_penalty_requires_count record_active_users).
    reflexivity.
  - apply (proj1 (proj2 (negative_field_penalty_requires_count
                           record_active_count))
             "active_count" (-10)%Z);
      [reflexivity | lia | reflexivity].
Defined.

(** ** Accuracy against a reference *)

Lemma compared_entries_cons (k : string) (v : PyVal) (items g : dict PyVal) :
  compared_entries ((k, v) :: items) g
  = if has_key k g then (k, v) :: compared_entries items g
    else compared_entries items g.
Proof. reflexivity. Qed.

Lemma matching_entries_cons (k : string) (v : PyVal) (items g : dict PyVal) :
  matching_entries ((k, v) :: items) g
  = if match dict_get k g with
       | Some expected => _values_match v expected tolerance_default
       | None => false
       end
    then (k, v) :: matching_entries items g
    else matching_entries items g.
Proof. reflexivity. Qed.

Lemma compare_items_counts (items g : dict PyVal) (c t : nat) :
  compare_items items g (c, t)
  = ((c + List.length (matching_entries items g))%nat,
     (t + List.length (compared_entries items g))%nat).
Proof.
  revert c t. induction items as [|[k v] items IH]; intros c t.
  - simpl. f_equal; lia.
  - cbn [compare_items].
    rewrite compared_entries_cons, matching_entries_cons. unfold has_key.
    destruct (dict_get k g) as [e|]; [|apply IH].
    rewrite IH. cbn [fst snd].
    destruct (_values_match v e tolerance_default);
      cbn [List.length]; f_equal; lia.
Qed.






(** ** Errors at the boundary *)


Lemma py_values_error (v : PyVal) (e : exn) :
  py_values v = Raise e -> builtin_error e.
Proof. destruct v; intros [= <-]; now left. Qed.












(** * Further properties *)

(** ** Counting *)

Lemma count_where_count_of {A : Type} (test : A -> bool) (xs : list A)
    (n : nat) :
  count_where test xs n = (n + count_of test xs)%nat.
Proof.
  unfold count_of. revert n. induction xs as [|x xs IH]; intros n; simpl.
  - lia.
  - rewrite IH. destruct (test x); simpl; lia.
Qed.

Lemma count_whereM_count_of {A : Type} (test : A -> res bool)
    (flag : A -> bool) (xs : list A) (n : nat) :
  (forall x, In x xs -> test x = Ok (flag x)) ->
  count_whereM test xs n = Ok (n + count_of flag xs)%nat.
Proof.
  unfold count_of. revert n. induction xs as [|x xs IH]; intros n H; simpl.
  - f_equal. lia.
  - rewrite (H x (or_introl eq_refl)). simpl. rewrite IH.
    + destruct (flag x); simpl; f_equal; lia.
    + intros y Hy. apply H. now right.
Qed.

Lemma count_of_le {A : Type} (test : A -> bool) (xs : list A) :
  (count_of test xs <= List.length xs)%nat.
Proof.
  unfold count_of. induction xs as [|x xs IH]; simpl; [lia|].
  destruct (test x); simpl; lia.
Qed.

Lemma count_of_all {A : Type} (test : A -> bool) (xs : list A) :
  count_of test xs = List.length xs <-> (forall x, In x xs -> test x = true).
Proof.
  unfold count_of. induction xs as [|x xs IH]; simpl.
  - split; [intros _ x [] | reflexivity].
  - pose proof (count_of_le test xs) as Hle. unfold count_of in Hle.
    destruct (test x) eqn:E; simpl; split.
    + intros H y [<-|Hy]; [exact E|]. apply IH; [lia | exact Hy].
    + intros H. f_equal. apply IH. intros y Hy. apply H. now right.
    + intros H. exfalso. lia.
    + intros H. rewrite (H x (or_introl eq_refl)) in E. discriminate.
Qed.

Lemma count_of_none {A : Type} (test : A -> bool) (xs : list A) :
  count_of test xs = 0%nat <-> (forall x, In x xs -> test x = false).
Proof.
  unfold count_of. induction xs as [|x xs IH]; simpl.
  - split; [intros _ x [] | reflexivity].
  - destruct (test x) eqn:E; simpl; split.
    + discriminate.
    + intros H. rewrite (H x (or_introl eq_refl)) in E. discriminate.
    + intros H y [<-|Hy]; [exact E | now apply IH].
    + intros H. apply IH. intros y Hy. apply H. now right.
Qed.

Lemma count_of_Permutation {A : Type} (test : A -> bool) (xs ys : list A) :
  Permutation xs ys -> count_of test xs = count_of test ys.
Proof.
  unfold count_of. induction 1 as [|x xs ys _ IH|x y xs|xs ys zs _ IH1 _ IH2];
    simpl.
  - reflexivity.
  - destruct (test x); simpl; congruence.
  - destruct (test x), (test y); reflexivity.
  - congruence.
Qed.

Lemma int_div_one_iff (a b : nat) :
  (0 < b)%nat -> (Num.int_div a b == 1 <-> a = b).
Proof.
  intros Hb. pose proof (inject_nat_pos b Hb) as Hpos.
  assert (Hnz : ~ inject_Z (Z.of_nat b) == 0).
  { intros H. rewrite H in Hpos. discriminate. }
  unfold Num.int_div. split.
  - intros H.
    assert (E : inject_Z (Z.of_nat a) == inject_Z (Z.of_nat b)).
    { rewrite <- (Qmult_div_r (inject_Z (Z.of_nat a)) _ Hnz).
      rewrite H. apply Qmult_1_r. }
    unfold Qeq in E. simpl in E. lia.
  - intros ->. now apply Qmult_inv_r.
Qed.

Lemma int_div_zero_iff (a b : nat) :
  (0 < b)%nat -> (Num.int_div a b == 0 <-> a = 0%nat).
Proof.
  intros Hb. pose proof (inject_nat_pos b Hb) as Hpos.
  assert (Hnz : ~ inject_Z (Z.of_nat b) == 0).
  { intros H. rewrite H in Hpos. discriminate. }
  unfold Num.int_div. split.
  - intros H.
    assert (E : inject_Z (Z.of_nat a) == inject_Z 0).
    { rewrite <- (Qmult_div_r (inject_Z (Z.of_nat a)) _ Hnz).
      rewrite H. apply Qmult_0_r. }
    unfold Qeq in E. simpl in E. lia.
  - intros ->. unfold Qdiv. apply Qmult_0_l.
Qed.

(** ** The semantic error rate as a count *)

Lemma mismatch_is_flag (query : string) (r : UniversalAnalysisResult)
    (items : dict PyVal) :
  calculation_results r = VDict items ->
  _check_result_query_mismatch query r
  = Ok (mismatch_flag items (analysis_query r) query).
Proof.
  intros Hr.
  unfold _check_result_query_mismatch, mismatch_flag, is_negative, is_over_100.
  rewrite Hr. unfold py_items, bind.
  repeat match goal with
         | |- context [Str.contains ?a ?b] => destruct (Str.contains a b)
         | |- context [Str.contains_any ?a ?b] =>
             destruct (Str.contains_any a b)
         | |- context [existsb ?f ?l] => destruct (existsb f l)
         end; reflexivity.
Qed.

Lemma has_semantic_error_is_flagged (query : string)
    (r : UniversalAnalysisResult) (items : dict PyVal) :
  calculation_results r = VDict items ->
  _has_semantic_error query r = Ok (flagged items (analysis_query r) query).
Proof.
  intros Hr. unfold _has_semantic_error, flagged. fold (pattern_flag query).
  destruct (pattern_flag query); [reflexivity|].
  now apply mismatch_is_flag.
Qed.

Lemma semantic_error_rate_count (r : UniversalAnalysisResult)
    (items : dict PyVal) :
  calculation_results r = VDict items ->
  mongodb_queries r <> [] ->
  _calculate_semantic_error_rate r
  = Ok (Num.int_div
          (count_of (flagged items (analysis_query r)) (mongodb_queries r))
          (List.length (mongodb_queries r))).
Proof.
  intros Hr Hne. unfold _calculate_semantic_error_rate.
  destruct (mongodb_queries r) as [|query queries]; [congruence|].
  rewrite (count_whereM_count_of
             (fun query => _has_semantic_error query r)
             (flagged items (analysis_query r)) (query :: queries) 0).
  - reflexivity.
  - intros x _. now apply has_semantic_error_is_flagged.
Qed.

(** X1. The semantic error rate does not depend on the order in which the
    executed queries are listed. *)
Theorem semantic_error_rate_order_irrelevant :
  forall (text : string) (queries queries' : list string) (items : dict PyVal)
         (logs logs' : list (dict PyVal)),
    Permutation queries queries' ->
    _calculate_semantic_error_rate
      {| analysis_query := text; mongodb_queries := queries;
         calculation_results := VDict items; execution_logs := logs |}
    = _calculate_semantic_error_rate
        {| analysis_query := text; mongodb_queries := queries';
           calculation_results := VDict items; execution_logs := logs' |}.
Proof.
  intros text queries queries' items logs logs' Hp.
  destruct queries as [|q qs].
  - apply Permutation_nil in Hp. subst queries'. reflexivity.
  - assert (Hne' : queries' <> []).
    { intros ->. apply Permutation_sym, Permutation_nil in Hp. discriminate. }
    match goal with
    | |- _calculate_semantic_error_rate ?a
         = _calculate_semantic_error_rate ?b =>
        rewrite (semantic_error_rate_count a items eq_refl) by discriminate;
        rewrite (semantic_error_rate_count b items eq_refl) by exact Hne'
    end.
    cbn [mongodb_queries analysis_query].
    rewrite (count_of_Permutation _ _ _ Hp), (Permutation_length Hp).
    reflexivity.
Qed.

Lemma semantic_error_rate_order_irrelevant_witness :
  _calculate_semantic_error_rate
    {| analysis_query := "활성 사용자 수 계산";
       mongodb_queries :=
         [ "db.users.find({'user_id': {'$ne': '$user_id'}})";
           "db.sessions.count({'invalid_field': true})" ];
       calculation_results := VDict [("active_users", VInt (-10))];
       execution_logs := [] |}
  = _calculate_semantic_error_rate
      {| analysis_query := "활성 사용자 수 계산";
         mongodb_queries :=
           [ "db.sessions.count({'invalid_field': true})";
             "db.users.find({'user_id': {'$ne': '$user_id'}})" ];
         calculation_results := VDict [("active_users", VInt (-10))];
         execution_logs := [] |}.
Proof.
  apply semantic_error_rate_order_irrelevant. apply perm_swap.
Defined.

(** X2. A query that mentions "count", in any letter case, is flagged as
    soon as some numeric value of the results is negative. *)
Theorem count_query_with_negative_result_flagged :
  forall (r : UniversalAnalysisResult) (items : dict PyVal) (query : string),
    calculation_results r = VDict items ->
    Str.contains "count" (Str.lower query) = true ->
    (exists key value x, In (key, value) items /\ as_num value = Some x /\
                         Num.ltb x (Fin 0) = true) ->
    _has_semantic_error query r = Ok true.
Proof.
  intros r items query Hr Hc (key & value & x & Hin & Hnum & Hneg).
  rewrite (has_semantic_error_is_flagged query r items Hr).
  unfold flagged, mismatch_flag. rewrite Hc.
  replace (existsb (fun kv => is_negative (snd kv)) items) with true.
  - now rewrite orb_true_r.
  - symmetry. apply existsb_exists. exists (key, value). split; [exact Hin|].
    unfold is_negative, num_test. simpl. now rewrite Hnum.
Qed.

Lemma count_query_with_negative_result_flagged_witness :
  _has_semantic_error "db.sessions.COUNT({'invalid_field': true})"
    record_active_users = Ok true.
Proof.
  apply (count_query_with_negative_result_flagged record_active_users
           [("active_users", VInt (-10))]).
  - reflexivity.
  - reflexivity.
  - exists "active_users", (VInt (-10)), (Num.of_Z (-10)).
    split; [simpl; auto | split; reflexivity].
Defined.

Lemma in_range_not_negative (x : pyfloat) :
  Num.leb (Fin 0) x = true -> Num.ltb x (Fin 0) = false.
Proof.
  destruct x; simpl; try reflexivity; try discriminate.
  unfold Num.Qlt_bool. intros ->. reflexivity.
Qed.

Lemma in_range_not_over (x : pyfloat) (bound : Q) :
  Num.leb x (Fin bound) = true -> Num.gtb x (Fin bound) = false.
Proof.
  destruct x; simpl; try reflexivity; try discriminate.
  unfold Num.gtb, Num.ltb, Num.Qlt_bool. intros ->. reflexivity.
Qed.

(** X3. When every numeric value of the results lies between 0 and 100,
    the cross-check against the results never triggers: a query is flagged
    exactly when a pattern of the catalogue matches it, whatever the
    question says. *)
Theorem plausible_results_leave_only_patterns :
  forall (r : UniversalAnalysisResult) (items : dict PyVal),
    calculation_results r = VDict items ->
    (forall key value x,
       In (key, value) items -> as_num value = Some x ->
       Num.leb (Fin 0) x = true /\ Num.leb x (Fin 100) = true) ->
    forall query, _has_semantic_error query r = Ok (pattern_flag query).
Proof.
  intros r items Hr Hrange query.
  rewrite (has_semantic_error_is_flagged query r items Hr).
  unfold flagged, mismatch_flag.
  assert (Hneg : existsb (fun kv => is_negative (snd kv)) items = false).
  { apply not_true_is_false. intros H. apply existsb_exists in H.
    destruct H as ([k v] & Hin & Hv). unfold is_negative, num_test in Hv.
    cbn [snd] in Hv. destruct (as_num v) as [x|] eqn:E; [|discriminate].
    destruct (Hrange k v x Hin E) as [H0 _].
    rewrite (in_range_not_negative x H0) in Hv. discriminate. }
  assert (Hbig : existsb (fun kv => is_over_100 (snd kv)) items = false).
  { apply not_true_is_false. intros H. apply existsb_exists in H.
    destruct H as ([k v] & Hin & Hv). unfold is_over_100, num_test in Hv.
    cbn [snd] in Hv. destruct (as_num v) as [x|] eqn:E; [|discriminate].
    destruct (Hrange k v x Hin E) as [_ H100].
    rewrite (in_range_not_over x 100 H100) in Hv. discriminate. }
  rewrite Hneg, Hbig, !andb_false_r. now rewrite orb_false_r.
Qed.

Lemma plausible_results_leave_only_patterns_witness :
  _has_semantic_error "db.sessions.count({'rate': {'$gt': 0}})"
    record_conversion_rate
  = Ok (pattern_flag "db.sessions.count({'rate': {'$gt': 0}})").
Proof.
  apply (plausible_results_leave_only_patterns record_conversion_rate
           [("conversion_rate", VFloat (Fin 3.45)); ("note", VStr "ok")]
           eq_refl).
  intros key value x [[= <- <-]|[[= <- <-]|[]]] [= <-].
  split; reflexivity.
Defined.

(** X4. With results that are a mapping and at least one executed query,
    the semantic error rate is 0 exactly when no query is flagged and 1
    exactly when every query is flagged. *)
Theorem semantic_error_rate_extremes :
  forall (r : UniversalAnalysisResult) (items : dict PyVal),
    calculation_results r = VDict items ->
    mongodb_queries r <> [] ->
    exists rate,
      _calculate_semantic_error_rate r = Ok rate /\
      (rate == 0 <->
       forall query, In query (mongodb_queries r) ->
                     _has_semantic_error query r = Ok false) /\
      (rate == 1 <->
       forall query, In query (mongodb_queries r) ->
                     _has_semantic_error query r = Ok true).
Proof.
  intros r items Hr Hne. eexists.
  split; [now apply (semantic_error_rate_count r items)|].
  assert (Hlen : (0 < List.length (mongodb_queries r))%nat).
  { destruct (mongodb_queries r); [congruence | simpl; lia]. }
  split.
  - rewrite (int_div_zero_iff _ _ Hlen), count_of_none.
    split; intros H query Hin.
    + rewrite (has_semantic_error_is_flagged query r items Hr).
      now rewrite (H query Hin).
    + specialize (H query Hin).
      rewrite (has_semantic_error_is_flagged query r items Hr) in H.
      congruence.
  - rewrite (int_div_one_iff _ _ Hlen), count_of_all.
    split; intros H query Hin.
    + rewrite (has_semantic_error_is_flagged query r items Hr).
      now rewrite (H query Hin).
    + specialize (H query Hin).
      rewrite (has_semantic_error_is_flagged query r items Hr) in H.
      congruence.
Qed.

Lemma semantic_error_rate_extremes_witness :
  exists rate,
    _calculate_semantic_error_rate (record_of_query ne_self_comparison)
    = Ok rate /\
    (rate == 0 <->
     forall query,
       In query (mongodb_queries (record_of_query ne_self_comparison)) ->
       _has_semantic_error query (record_of_query ne_self_comparison)
       = Ok false) /\
    (rate == 1 <->
     forall query,
       In query (mongodb_queries (record_of_query ne_self_comparison)) ->
       _has_semantic_error query (record_of_query ne_self_comparison)
       = Ok true).
Proof.
  apply (semantic_error_rate_extremes (record_of_query ne_self_comparison)
           [("daily_active_users", VInt 1847)]).
  - reflexivity.
  - discriminate.
Defined.

(** ** The execution success rate and the empty result rate as counts *)

Lemma execution_success_rate_count (r : UniversalAnalysisResult) :
  execution_logs r <> [] ->
  _calculate_execution_success_rate r
  = Num.int_div (count_of log_succeeded (execution_logs r))
      (List.length (execution_logs r)).
Proof.
  intros Hne. unfold _calculate_execution_success_rate.
  destruct (execution_logs r) as [|log logs]; [congruence|].
  rewrite count_where_count_of. reflexivity.
Qed.


(** X5. With at least one log entry, the execution success rate is 1
    exactly when every entry counts as successful and 0 exactly when none
    does; and it does not depend on the order of the entries. *)
Theorem execution_success_rate_extremes :
  forall (r : UniversalAnalysisResult),
    execution_logs r <> [] ->
    (_calculate_execution_success_rate r == 1 <->
     forall log, In log (execution_logs r) -> log_succeeded log = true) /\
    (_calculate_execution_success_rate r == 0 <->
     forall log, In log (execution_logs r) -> log_succeeded log = false) /\
    (forall r', Permutation (execution_logs r) (execution_logs r') ->
                _calculate_execution_success_rate r'
                = _calculate_execution_success_rate r).
Proof.
  intros r Hne.
  assert (Hlen : (0 < List.length (execution_logs r))%nat).
  { destruct (execution_logs r); [congruence | simpl; lia]. }
  rewrite (execution_success_rate_count r Hne).
  split; [|split].
  - rewrite (int_div_one_iff _ _ Hlen). apply count_of_all.
  - rewrite (int_div_zero_iff _ _ Hlen). apply count_of_none.
  - intros r' Hp.
    assert (Hne' : execution_logs r' <> []).
    { intros E. rewrite E in Hp. apply Permutation_sym, Permutation_nil in Hp.
      congruence. }
    rewrite (execution_success_rate_count r' Hne').
    rewrite (count_of_Permutation _ _ _ Hp), (Permutation_length Hp).
    reflexivity.
Qed.

Lemma execution_success_rate_extremes_witness :
  (_calculate_execution_success_rate record_with_problems == 1 <->
   forall log, In log (execution_logs record_with_problems) ->
               log_succeeded log = true) /\
  (_calculate_execution_success_rate record_with_problems == 0 <->
   forall log, In log (execution_logs record_with_problems) ->
               log_succeeded log = false) /\
  (forall r',
     Permutation (execution_logs record_with_problems) (execution_logs r') ->
     _calculate_execution_success_rate r'
     = _calculate_execution_success_rate record_with_problems).
Proof.
  apply (execution_success_rate_extremes record_with_problems). discriminate.
Defined.






(** ** Verdicts *)

Lemma overall_pass_value (self : UniversalMongoDBEvaluator) (s e y a : Q)
    (t_sem t_exec t_empty t_acc : pyfloat) :
  dict_get "semantic_error" (thresholds self) = Some t_sem ->
  dict_get "execution_success" (thresholds self) = Some t_exec ->
  dict_get "empty_result" (thresholds self) = Some t_empty ->
  dict_get "accuracy" (thresholds self) = Some t_acc ->
  _determine_overall_pass self s e y a
  = Ok (Num.leb (Fin s) t_sem && Num.geb (Fin e) t_exec &&
        Num.leb (Fin y) t_empty && Num.geb (Fin a) t_acc).
Proof.
  intros H1 H2 H3 H4. unfold _determine_overall_pass, getitem.
  rewrite H1, H2, H3, H4. reflexivity.
Qed.

Lemma overall_pass_thresholds (self : UniversalMongoDBEvaluator)
    (s e y a : Q) (b : bool) :
  _determine_overall_pass self s e y a = Ok b ->
  exists t_sem t_exec t_empty t_acc,
    dict_get "semantic_error" (thresholds self) = Some t_sem /\
    dict_get "execution_success" (thresholds self) = Some t_exec /\
    dict_get "empty_result" (thresholds self) = Some t_empty /\
    dict_get "accuracy" (thresholds self) = Some t_acc.
Proof.
  unfold _determine_overall_pass, getitem.
  destruct (dict_get "semantic_error" (thresholds self)) as [t1|];
    [|discriminate].
  destruct (dict_get "execution_success" (thresholds self)) as [t2|];
    [|discriminate].
  destruct (dict_get "empty_result" (thresholds self)) as [t3|];
    [|discriminate].
  destruct (dict_get "accuracy" (thresholds self)) as [t4|]; [|discriminate].
  intros _. now exists t1, t2, t3, t4.
Qed.

Lemma Ok_injective {A : Type} (a b : A) : Ok a = Ok b -> a = b.
Proof. now intros [= ->]. Qed.

(** X8. Results that are an empty mapping give an empty result rate of 1
    and, with or without reference, an accuracy rate of 1; the verdict is
    a failure whenever the threshold for empty results is below 1, as the
    default 0.2 is. *)
Theorem empty_results_fail_the_gate :
  forall (self : UniversalMongoDBEvaluator) (r : UniversalAnalysisResult)
         (g : option (dict PyVal)) (m : EvaluationMetrics),
    calculation_results r = VDict [] ->
    evaluate self r g = Ok m ->
    empty_result_rate m = 1 /\
    accuracy_rate m = 1 /\
    (forall t, dict_get "empty_result" (thresholds self) = Some (Fin t) ->
               t < 1 -> overall_pass m = false).
Proof.
  intros self r g m Hr H. apply evaluate_Ok in H.
  destruct H as (_ & _ & Hy & Ha & Hp).
  assert (Ey : empty_result_rate m = 1).
  { unfold _calculate_empty_result_rate in Hy. rewrite Hr in Hy.
    apply Ok_injective in Hy. now symmetry. }
  assert (Ea : accuracy_rate m = 1).
  { unfold _calculate_accuracy_rate, _calculate_consistency_score in Ha.
    rewrite Hr in Ha. destruct g; apply Ok_injective in Ha; now symmetry. }
  split; [exact Ey|]. split; [exact Ea|].
  intros t Ht Hlt.
  destruct (overall_pass_thresholds _ _ _ _ _ _ Hp)
    as (t1 & t2 & t3 & t4 & H1 & H2 & H3 & H4).
  rewrite (overall_pass_value self _ _ _ _ t1 t2 t3 t4 H1 H2 H3 H4) in Hp.
  apply Ok_injective in Hp. rewrite <- Hp.
  rewrite Ht in H3. injection H3 as <-. rewrite Ey.
  replace (Num.leb (Fin 1) (Fin t)) with false.
  - now rewrite andb_false_r.
  - symmetry. apply not_true_is_false. intros E. simpl in E.
    apply Qle_bool_iff in E. apply Qlt_not_le in Hlt. contradiction.
Qed.

Lemma empty_results_fail_the_gate_witness :
  exists m,
    evaluate (__init__ None)
      {| analysis_query := "일일 활성 사용자 수 분석";
         mongodb_queries := [];
         calculation_results := VDict [];
         execution_logs := [] |} None = Ok m /\
    empty_result_rate m = 1 /\
    accuracy_rate m = 1 /\
    (forall t, dict_get "empty_result" default_thresholds = Some (Fin t) ->
               t < 1 -> overall_pass m = false).
Proof.
  eexists. split; [vm_compute; reflexivity|].
  apply (empty_results_fail_the_gate (__init__ None)
           {| analysis_query := "일일 활성 사용자 수 분석";
              mongodb_queries := [];
              calculation_results := VDict [];
              execution_logs := [] |} None).
  - reflexivity.
  - vm_compute. reflexivity.
Defined.

(** X9. Without threshold override, or with an empty one, the verdict is a
    pass exactly when the semantic error rate is at most 0.1, the
    execution success rate at least 0.8, the empty result rate at most 0.2
    and the accuracy rate at least 0.9. *)
Theorem default_verdict :
  forall (custom : option (dict pyfloat)) (r : UniversalAnalysisResult)
         (g : option (dict PyVal)) (m : EvaluationMetrics),
    custom = None \/ custom = Some [] ->
    evaluate (__init__ custom) r g = Ok m ->
    (overall_pass m = true <->
     semantic_error_rate m <= 0.1 /\
     0.8 <= execution_success_rate m /\
     empty_result_rate m <= 0.2 /\
     0.9 <= accuracy_rate m).
Proof.
  intros custom r g m Hc H.
  assert (E : evaluate (__init__ None) r g = Ok m)
    by (destruct Hc as [->| ->]; exact H).
  apply evaluate_Ok in E. destruct E as (_ & _ & _ & _ & Hp).
  rewrite (overall_pass_value (__init__ None) _ _ _ _
             (Fin 0.1) (Fin 0.8) (Fin 0.2) (Fin 0.9)
             eq_refl eq_refl eq_refl eq_refl) in Hp.
  apply Ok_injective in Hp. rewrite <- Hp.
  unfold Num.geb, Num.leb. rewrite !andb_true_iff, !Qle_bool_iff. tauto.
Qed.

Lemma default_verdict_witness :
  exists m,
    evaluate (__init__ (Some [])) record_with_problems None = Ok m /\
    (overall_pass m = true <->
     semantic_error_rate m <= 0.1 /\
     0.8 <= execution_success_rate m /\
     empty_result_rate m <= 0.2 /\
     0.9 <= accuracy_rate m).
Proof.
  eexists. split; [vm_compute; reflexivity|].
  apply (default_verdict (Some []) record_with_problems None).
  - now right.
  - vm_compute. reflexivity.
Defined.

Lemma leb_lower (s s' : Q) (t : pyfloat) :
  s' <= s -> Num.leb (Fin s) t = true -> Num.leb (Fin s') t = true.
Proof.
  intros Hs. destruct t; simpl; try (intros; assumption).
  rewrite !Qle_bool_iff. intros H. now apply (Qle_trans _ s).
Qed.

Lemma geb_higher (e e' : Q) (t : pyfloat) :
  e <= e' -> Num.geb (Fin e) t = true -> Num.geb (Fin e') t = true.
Proof.
  intros He. unfold Num.geb. destruct t; simpl; try (intros; assumption).
  rewrite !Qle_bool_iff. intros H. now apply (Qle_trans _ e).
Qed.

(** X10. The verdict is monotone in the rates: after a pass, a lower
    semantic error rate, a higher execution success rate, a lower empty
    result rate or a higher accuracy rate still give a pass under the same
    thresholds. *)
Theorem overall_pass_monotone :
  forall (self : UniversalMongoDBEvaluator) (s e y a s' e' y' a' : Q),
    _determine_overall_pass self s e y a = Ok true ->
    s' <= s -> e <= e' -> y' <= y -> a <= a' ->
    _determine_overall_pass self s' e' y' a' = Ok true.
Proof.
  intros self s e y a s' e' y' a' Hp Hs He Hy Ha.
  destruct (overall_pass_thresholds _ _ _ _ _ _ Hp)
    as (t1 & t2 & t3 & t4 & H1 & H2 & H3 & H4).
  rewrite (overall_pass_value self s e y a t1 t2 t3 t4 H1 H2 H3 H4) in Hp.
  rewrite (overall_pass_value self s' e' y' a' t1 t2 t3 t4 H1 H2 H3 H4).
  apply Ok_injective in Hp. f_equal.
  rewrite !andb_true_iff in *. destruct Hp as [[[P1 P2] P3] P4].
  repeat split.
  - now apply (leb_lower s).
  - now apply (geb_higher e).
  - now apply (leb_lower y).
  - now apply (geb_higher a).
Qed.

Lemma overall_pass_monotone_witness :
  _determine_overall_pass (__init__ None) 0 1 0 1 = Ok true.
Proof.
  apply (overall_pass_monotone (__init__ None) 0.1 0.8 0.2 0.9);
    [reflexivity | discriminate..].
Defined.



(** ** The consistency score in closed form *)

Lemma fold_left_fixed {A : Type} (f : Q -> A -> Q) (xs : list A) (s : Q) :
  (forall x, In x xs -> forall s, f s x = s) -> fold_left f xs s = s.
Proof.
  revert s. induction xs as [|x xs IH]; intros s H; simpl; [reflexivity|].
  rewrite (H x (or_introl eq_refl)). apply IH.
  intros y Hy. apply H. now right.
Qed.

Lemma in_range_not_huge (x : pyfloat) :
  Num.leb x (Fin 100) = true -> Num.gtb x (Fin 10000000) = false.
Proof.
  destruct x; simpl; try reflexivity; try discriminate.
  unfold Num.gtb, Num.ltb, Num.Qlt_bool. intros H.
  apply Qle_bool_iff in H. apply negb_false_iff. apply Qle_bool_iff.
  eapply Qle_trans; [exact H | discriminate].
Qed.

(** X12. When every numeric value of the results lies between 0 and 100,
    no penalty applies: the consistency score, and with it the accuracy
    rate of an evaluation without reference, is exactly 1. *)
Theorem plausible_results_score_one :
  forall (r : UniversalAnalysisResult) (items : dict PyVal),
    calculation_results r = VDict items ->
    (forall key value x,
       In (key, value) items -> as_num value = Some x ->
       Num.leb (Fin 0) x = true /\ Num.leb x (Fin 100) = true) ->
    _calculate_consistency_score r = Ok 1 /\
    _calculate_accuracy_rate r None = Ok 1.
Proof.
  intros r items Hr Hrange.
  assert (H : _calculate_consistency_score r = Ok 1); [|now split].
  unfold _calculate_consistency_score. rewrite Hr.
  unfold py_values, py_items, bind.
  assert (H1 : match filter is_number (map snd items) with
               | [] => 1
               | _ :: _ =>
                   fold_left (extreme_value_penalty (VDict items))
                     (filter is_number (map snd items)) 1
               end = 1).
  { destruct (filter is_number (map snd items)) as [|v vs] eqn:E;
      [reflexivity|].
    apply fold_left_fixed. intros value Hin s. rewrite <- E in Hin.
    apply filter_In in Hin. destruct Hin as [Hin _].
    apply in_map_iff in Hin. destruct Hin as ([k v'] & <- & Hin).
    cbn [snd]. unfold extreme_value_penalty, num_test.
    destruct (as_num v') as [x|] eqn:Ex; [|reflexivity].
    destruct (Hrange k v' x Hin Ex) as [H0 H100].
    rewrite (in_range_not_negative x H0), (in_range_not_huge x H100).
    reflexivity. }
  rewrite H1. rewrite fold_left_fixed; [reflexivity|].
  intros [k v] Hin s. unfold ratio_range_penalty, num_test. cbn [fst snd].
  destruct (Str.contains_any ratio_words (Str.lower k)); [|reflexivity].
  destruct (as_num v) as [x|] eqn:Ex; [|reflexivity].
  destruct (Hrange k v x Hin Ex) as [H0 H100].
  rewrite (in_range_not_negative x H0).
  fold (Num.gtb x (Fin 100)). rewrite (in_range_not_over x 100 H100).
  reflexivity.
Qed.

Lemma plausible_results_score_one_witness :
  _calculate_consistency_score record_conversion_rate = Ok 1 /\
  _calculate_accuracy_rate record_conversion_rate None = Ok 1.
Proof.
  apply (plausible_results_score_one record_conversion_rate
           [("conversion_rate", VFloat (Fin 3.45)); ("note", VStr "ok")]
           eq_refl).
  intros key value x [[= <- <-]|[[= <- <-]|[]]] [= <-].
  split; reflexivity.
Defined.









(** ** More of the pattern catalogue *)












(** X15. Any query in which "count" is followed on the same line by "==",
    "0", "AND" and "exists", in this order, is flagged as an existence
    contradiction. *)
Theorem count_zero_exists_flagged :
  forall (pre a b c d post : string) (r : UniversalAnalysisResult),
    Str.single_line a = true -> Str.single_line b = true ->
    Str.single_line c = true -> Str.single_line d = true ->
    Re.search count_zero_exists
      (pre ++ "count" ++ a ++ "==" ++ b ++ "0" ++ c ++ "AND" ++ d ++ "exists"
       ++ post) = true /\
    _has_semantic_error
      (pre ++ "count" ++ a ++ "==" ++ b ++ "0" ++ c ++ "AND" ++ d ++ "exists"
       ++ post) r = Ok true.
Proof.
  intros pre a b c d post r Ha Hb Hc Hd.
  assert (Hs : Re.search count_zero_exists
                 (pre ++ "count" ++ a ++ "==" ++ b ++ "0" ++ c ++ "AND" ++ d
                  ++ "exists" ++ post) = true).
  { apply search_app.
    apply (match_lits "count"
             ([Re.star Re.Dot] ++ Re.lits "==" ++ [Re.star Re.Dot] ++
              Re.lits "0" ++ [Re.star Re.Dot] ++ Re.lits "AND" ++
              [Re.star Re.Dot] ++ Re.lits "exists")%list).
    apply match_repeat; [exact Ha | apply Nat.le_0_l |].
    apply (match_lits "=="
             ([Re.star Re.Dot] ++ Re.lits "0" ++ [Re.star Re.Dot] ++
              Re.lits "AND" ++ [Re.star Re.Dot] ++ Re.lits "exists")%list).
    apply match_repeat; [exact Hb | apply Nat.le_0_l |].
    apply (match_lits "0"
             ([Re.star Re.Dot] ++ Re.lits "AND" ++ [Re.star Re.Dot] ++
              Re.lits "exists")%list).
    apply match_repeat; [exact Hc | apply Nat.le_0_l |].
    apply (match_lits "AND" ([Re.star Re.Dot] ++ Re.lits "exists")%list).
    apply match_repeat; [exact Hd | apply Nat.le_0_l |].
    apply (match_lits "exists" []). reflexivity. }
  split; [exact Hs|].
  apply (flagged_by_pattern count_zero_exists); [simpl; auto | exact Hs].
Qed.

Lemma count_zero_exists_flagged_witness :
  Re.search count_zero_exists
    ("SELECT ... WHERE " ++ "count" ++ "(x) " ++ "==" ++ " " ++ "0" ++ " "
     ++ "AND" ++ " " ++ "exists" ++ "(x)") = true /\
  _has_semantic_error
    ("SELECT ... WHERE " ++ "count" ++ "(x) " ++ "==" ++ " " ++ "0" ++ " "
     ++ "AND" ++ " " ++ "exists" ++ "(x)")
    (record_of_query ne_self_comparison) = Ok true.
Proof.
  apply (count_zero_exists_flagged "SELECT ... WHERE " "(x) " " " " " " "
           "(x)");
    reflexivity.
Defined.

(** X16. Any query in which "$match" is followed on the same line by an
    opening brace, optional whitespace and a closing brace is flagged as
    an empty match condition, also when the empty braces belong to a later
    stage of the pipeline. *)
Theorem empty_match_flagged :
  forall (pre a ws post : string) (r : UniversalAnalysisResult),
    Str.single_line a = true ->
    Str.all Str.is_space ws = true ->
    Re.search empty_match (pre ++ "$match" ++ a ++ "{" ++ ws ++ "}" ++ post)
    = true /\
    _has_semantic_error (pre ++ "$match" ++ a ++ "{" ++ ws ++ "}" ++ post) r
    = Ok true.
Proof.
  intros pre a ws post r Ha Hws.
  assert (Hs : Re.search empty_match
                 (pre ++ "$match" ++ a ++ "{" ++ ws ++ "}" ++ post) = true).
  { apply search_app.
    apply (match_lits "$match"
             ([Re.star Re.Dot] ++ Re.lits "{" ++ [Re.star Re.Space] ++
              Re.lits "}")%list).
    apply match_repeat; [exact Ha | apply Nat.le_0_l |].
    apply (match_lits "{" ([Re.star Re.Space] ++ Re.lits "}")%list).
    apply match_repeat; [exact Hws | apply Nat.le_0_l |].
    apply (match_lits "}" []). reflexivity. }
  split; [exact Hs|].
  apply (flagged_by_pattern empty_match); [simpl; auto 6 | exact Hs].
Qed.

Lemma empty_match_flagged_witness :
  Re.search empty_match
    ("db.o.aggregate([{'" ++ "$match" ++ "': {'a': 1}}, {'$project': " ++ "{"
     ++ EmptyString ++ "}" ++ "}])") = true /\
  _has_semantic_error
    ("db.o.aggregate([{'" ++ "$match" ++ "': {'a': 1}}, {'$project': " ++ "{"
     ++ EmptyString ++ "}" ++ "}])")
    (record_of_query ne_self_comparison) = Ok true.
Proof.
  apply (empty_match_flagged "db.o.aggregate([{'"
           "': {'a': 1}}, {'$project': " EmptyString "}])");
    reflexivity.
Defined.

(** ** Letter case *)

Lemma lower_ascii_idem (a : ascii) :
  Str.lower_ascii (Str.lower_ascii a) = Str.lower_ascii a.
Proof. destruct a as [[] [] [] [] [] [] [] []]; reflexivity. Qed.

Lemma lower_idem (s : string) : Str.lower (Str.lower s) = Str.lower s.
Proof.
  induction s as [|a s IH]; simpl; [reflexivity|].
  now rewrite lower_ascii_idem, IH.
Qed.

Lemma lower_app (s t : string) :
  Str.lower (s ++ t) = Str.lower s ++ Str.lower t.
Proof. induction s as [|a s IH]; simpl; [reflexivity | now rewrite IH]. Qed.

Lemma class_match_lower (c : Re.cclass) (a : ascii) :
  Re.class_match c (Str.lower_ascii a) = Re.class_match c a.
Proof.
  destruct c; simpl; rewrite ?lower_ascii_idem; try reflexivity;
    destruct a as [[] [] [] [] [] [] [] []]; reflexivity.
Qed.

Lemma push_ci (a : ascii) (st st' : Re.caps) :
  caps_ci st st' -> caps_ci (Re.push a st) (Re.push (Str.lower_ascii a) st').
Proof.
  intros [Ho Hg]. split; [|exact Hg]. simpl.
  destruct (Re.opened st) as [w|], (Re.opened st') as [w'|];
    simpl in *; try discriminate; [|reflexivity].
  injection Ho as Ho. rewrite !lower_app, Ho. simpl.
  now rewrite lower_ascii_idem.
Qed.

Lemma repeat_ci (k k' : Re.caps -> string -> bool) (c : Re.cclass) :
  (forall st st' s, caps_ci st st' -> k st s = k' st' (Str.lower s)) ->
  forall s n st st',
    caps_ci st st' ->
    Re.repeat k c n st s = Re.repeat k' c n st' (Str.lower s).
Proof.
  intros Hk. induction s as [|a s IH]; intros n st st' Hci.
  - simpl. destruct (Nat.eqb n 0); [now apply (Hk st st' EmptyString)|].
    reflexivity.
  - change (Str.lower (String a s))
      with (String (Str.lower_ascii a) (Str.lower s)).
    cbn [Re.repeat]. rewrite class_match_lower.
    rewrite (IH (pred n) _ _ (push_ci a st st' Hci)).
    rewrite (Hk st st' (String a s) Hci). reflexivity.
Qed.

Lemma again_ci (k k' : Re.caps -> string -> bool) :
  (forall st st' s, caps_ci st st' -> k st s = k' st' (Str.lower s)) ->
  forall w w' st st' s,
    Str.lower w = Str.lower w' ->
    caps_ci st st' ->
    Re.again k w st s = Re.again k' w' st' (Str.lower s).
Proof.
  intros Hk. induction w as [|c w IH]; intros [|c' w'] st st' s Hw Hci;
    try discriminate.
  - now apply Hk.
  - simpl in Hw. injection Hw as Hc Hw. destruct s as [|a s]; [reflexivity|].
    change (Str.lower (String a s))
      with (String (Str.lower_ascii a) (Str.lower s)).
    cbn [Re.again]. simpl (Re.class_match _ _).
    rewrite lower_ascii_idem, Hc.
    rewrite (IH w' _ _ s Hw (push_ci a st st' Hci)). reflexivity.
Qed.

Lemma match_here_ci (p : Re.regex) :
  forall st st' s,
    caps_ci st st' ->
    Re.match_here p st s = Re.match_here p st' (Str.lower s).
Proof.
  induction p as [|item p IH]; intros st st' s Hci; [reflexivity|].
  destruct item as [c|n c| | |]; cbn [Re.match_here].
  - destruct s as [|a s]; [reflexivity|].
    change (Str.lower (String a s))
      with (String (Str.lower_ascii a) (Str.lower s)).
    cbn iota. rewrite class_match_lower.
    now rewrite (IH _ _ s (push_ci a st st' Hci)).
  - now apply repeat_ci.
  - apply IH. destruct Hci as [_ Hg]. split; [reflexivity | exact Hg].
  - apply IH. destruct Hci as [Ho _]. split; [reflexivity | exact Ho].
  - destruct Hci as [Ho Hg].
    destruct (Re.group1 st) as [w|] eqn:E, (Re.group1 st') as [w'|] eqn:E';
      simpl in Hg; try discriminate; [|reflexivity].
    injection Hg as Hg. apply again_ci; [exact IH | exact Hg|].
    split; [exact Ho | now rewrite E, E'; simpl; rewrite Hg].
Qed.

Lemma search_ci (p : Re.regex) (s : string) :
  Re.search p (Str.lower s) = Re.search p s.
Proof.
  induction s as [|a s IH]; [reflexivity|].
  cbn [Str.lower Re.search].
  rewrite (match_here_ci p Re.no_caps Re.no_caps (String a s));
    [|split; reflexivity].
  cbn [Str.lower]. now rewrite IH.
Qed.

(** X17. The classification of a query does not depend on its letter
    case: the query written in lower case is flagged exactly when the
    query itself is, by the catalogue of patterns and by the cross-check
    alike. *)
Theorem semantic_error_case_insensitive :
  forall (query : string) (r : UniversalAnalysisResult),
    pattern_flag (Str.lower query) = pattern_flag query /\
    _has_semantic_error (Str.lower query) r = _has_semantic_error query r.
Proof.
  intros query r.
  assert (Hp : pattern_flag (Str.lower query) = pattern_flag query).
  { unfold pattern_flag. induction logical_error_patterns as [|p ps IH];
      [reflexivity|]. simpl. now rewrite search_ci, IH. }
  split; [exact Hp|].
  unfold _has_semantic_error. fold (pattern_flag (Str.lower query)).
  fold (pattern_flag query). rewrite Hp.
  unfold _check_result_query_mismatch. now rewrite lower_idem.
Qed.

(** ** What the catalogue cannot match *)

Lemma any_char_app_r (f : ascii -> bool) (s1 s2 : string) :
  any_char f s2 = true -> any_char f (s1 ++ s2) = true.
Proof.
  intros H. induction s1 as [|a s1 IH]; simpl; [exact H|].
  rewrite IH. apply orb_true_r.
Qed.

Lemma any_char_impl (f g : ascii -> bool) (s : string) :
  (forall a, f a = true -> g a = true) ->
  any_char f s = true -> any_char g s = true.
Proof.
  intros Hfg. induction s as [|a s IH]; simpl; [discriminate|].
  rewrite !orb_true_iff. intros [H|H]; [left; now apply Hfg | right; now apply IH].
Qed.

Lemma repeat_inv (k : Re.caps -> string -> bool) (c : Re.cclass) :
  forall s n st,
    Re.repeat k c n st s = true ->
    exists s1 s2 st',
      s = s1 ++ s2 /\ Str.all (Re.class_match c) s1 = true /\
      (n <= String.length s1)%nat /\ k st' s2 = true.
Proof.
  induction s as [|a s IH]; intros n st H; cbn [Re.repeat] in H.
  - destruct (Nat.eqb n 0) eqn:En; [|discriminate].
    apply Nat.eqb_eq in En. subst n.
    exists EmptyString, EmptyString, st. repeat split; auto.
  - destruct (Re.class_match c a) eqn:Ea.
    + destruct (Re.repeat k c (pred n) (Re.push a st) s) eqn:Er.
      * destruct (IH _ _ Er) as (s1 & s2 & st' & -> & Hall & Hn & Hk).
        exists (String a s1), s2, st'. simpl. rewrite Ea, Hall.
        repeat split; auto. lia.
      * destruct (Nat.eqb n 0) eqn:En; [|discriminate].
        apply Nat.eqb_eq in En. subst n.
        exists EmptyString, (String a s), st. repeat split; auto.
    + destruct (Nat.eqb n 0) eqn:En; [|discriminate].
      apply Nat.eqb_eq in En. subst n.
      exists EmptyString, (String a s), st. repeat split; auto.
Qed.

Lemma again_inv (k : Re.caps -> string -> bool) :
  forall w st s,
    Re.again k w st s = true ->
    exists s1 s2 st', s = s1 ++ s2 /\ k st' s2 = true.
Proof.
  induction w as [|c w IH]; intros st s H; cbn [Re.again] in H.
  - now exists EmptyString, s, st.
  - destruct s as [|a s]; [discriminate|].
    destruct (Re.class_match (Re.Lit c) a); [|discriminate].
    destruct (IH _ _ H) as (s1 & s2 & st' & -> & Hk).
    now exists (String a s1), s2, st'.
Qed.

Lemma match_here_requires (c : Re.cclass) (item : Re.item) (p2 : Re.regex) :
  requires c item ->
  forall (p1 : Re.regex) st s,
    Re.match_here (p1 ++ item :: p2)%list st s = true ->
    any_char (Re.class_match c) s = true.
Proof.
  intros Hreq. induction p1 as [|it p1 IH]; intros st s H.
  - simpl app in H. destruct Hreq as [->|[n ->]]; cbn [Re.match_here] in H.
    + destruct s as [|a s]; [discriminate|]. simpl.
      destruct (Re.class_match c a); [reflexivity | discriminate].
    + apply repeat_inv in H.
      destruct H as (s1 & s2 & st' & -> & Hall & Hn & _).
      destruct s1 as [|a s1]; [simpl in Hn; lia|].
      simpl in Hall. apply andb_true_iff in Hall. destruct Hall as [Ha _].
      simpl. now rewrite Ha.
  - change ((it :: p1) ++ item :: p2)%list
      with (it :: (p1 ++ item :: p2))%list in H.
    destruct it as [c'|n c'| | |]; cbn [Re.match_here] in H.
    + destruct s as [|a s]; [discriminate|].
      destruct (Re.class_match c' a); [|discriminate].
      simpl. rewrite (IH _ _ H). apply orb_true_r.
    + apply repeat_inv in H.
      destruct H as (s1 & s2 & st' & -> & _ & _ & Hk).
      apply any_char_app_r. exact (IH _ _ Hk).
    + exact (IH _ _ H).
    + exact (IH _ _ H).
    + destruct (Re.group1 st) as [w|]; [|discriminate].
      apply again_inv in H. destruct H as (s1 & s2 & st' & -> & Hk).
      apply any_char_app_r. exact (IH _ _ Hk).
Qed.

Lemma search_requires (c : Re.cclass) (item : Re.item) (p1 p2 : Re.regex)
    (s : string) :
  requires c item ->
  Re.search (p1 ++ item :: p2)%list s = true ->
  any_char (Re.class_match c) s = true.
Proof.
  intros Hreq. induction s as [|a s IH]; cbn [Re.search]; intros H.
  - destruct (Re.match_here (p1 ++ item :: p2)%list Re.no_caps EmptyString) eqn:E;
      [|discriminate].
    exact (match_here_requires c item p2 Hreq p1 _ _ E).
  - destruct (Re.match_here (p1 ++ item :: p2)%list Re.no_caps (String a s)) eqn:E.
    + exact (match_here_requires c item p2 Hreq p1 _ _ E).
    + simpl. rewrite (IH H). apply orb_true_r.
Qed.

Lemma comparison_class_is_operator (a : ascii) :
  Re.class_match (Re.OneOf "!=<>") a = true -> is_operator_char a = true.
Proof.
  destruct a as [[] [] [] [] [] [] [] []]; vm_compute; intros H;
    first [reflexivity | discriminate H].
Qed.

Lemma literal_class_is_operator (c a : ascii) :
  is_operator_char c = true ->
  Re.class_match (Re.Lit c) a = true -> is_operator_char a = true.
Proof.
  intros Hc. unfold is_operator_char in Hc. cbn [Repr.has_char] in Hc.
  repeat (apply orb_true_iff in Hc; destruct Hc as [Hc|Hc]);
    try discriminate; apply Ascii.eqb_eq in Hc; subst c;
    destruct a as [[] [] [] [] [] [] [] []]; vm_compute; intros H;
    first [reflexivity | discriminate H].
Qed.

(** X18. A query that has none of the characters ! = < > $ is matched by
    no pattern of the catalogue, however it is worded: it can only be
    flagged by the cross-check against the results. *)
Theorem no_operator_no_pattern :
  forall (query : string),
    any_char is_operator_char query = false ->
    pattern_flag query = false /\
    (forall r, _has_semantic_error query r
               = _check_result_query_mismatch query r).
Proof.
  intros query Hq.
  assert (Hno : forall c item p1 p2,
             requires c item ->
             (forall a, Re.class_match c a = true ->
                        is_operator_char a = true) ->
             Re.search (p1 ++ item :: p2)%list query = false).
  { intros c item p1 p2 Hreq Hc. apply not_true_is_false. intros H.
    apply (search_requires c item p1 p2 query Hreq) in H.
    apply (any_char_impl _ _ query Hc) in H. congruence. }
  assert (Hp : pattern_flag query = false).
  { assert (H1 : Re.search self_comparison query = false).
    { exact (Hno (Re.OneOf "!=<>") (Re.AtLeast 1 (Re.OneOf "!=<>"))
               [Re.GroupOpen; Re.plus Re.Word; Re.GroupClose;
                Re.star Re.Space]
               [Re.star Re.Space; Re.BackRef]
               (or_intror (ex_intro _ 0%nat eq_refl))
               comparison_class_is_operator). }
    assert (H2 : Re.search count_zero_exists query = false).
    { exact (Hno (Re.Lit "=") (Re.One (Re.Lit "="))
               (Re.lits "count" ++ [Re.star Re.Dot])%list
               (Re.lits "=" ++ [Re.star Re.Dot] ++ Re.lits "0" ++
                [Re.star Re.Dot] ++ Re.lits "AND" ++ [Re.star Re.Dot] ++
                Re.lits "exists")%list
               (or_introl eq_refl)
               (fun a => literal_class_is_operator "=" a eq_refl)). }
    assert (H3 : Re.search huge_number query = false).
    { exact (Hno (Re.Lit ">") (Re.One (Re.Lit ">")) []
               [Re.star Re.Space; Re.AtLeast 8 (Re.Lit "9")]
               (or_introl eq_refl)
               (fun a => literal_class_is_operator ">" a eq_refl)). }
    assert (H4 : Re.search empty_match query = false).
    { exact (Hno (Re.Lit "$") (Re.One (Re.Lit "$")) []
               (Re.lits "match" ++ [Re.star Re.Dot] ++ Re.lits "{" ++
                [Re.star Re.Space] ++ Re.lits "}")%list
               (or_introl eq_refl)
               (fun a => literal_class_is_operator "$" a eq_refl)). }
    assert (H5 : Re.search duplicate_grouping query = false).
    { exact (Hno (Re.Lit "$") (Re.One (Re.Lit "$")) []
               (Re.lits "group" ++ [Re.star Re.Dot] ++ Re.lits "_id" ++
                [Re.star Re.Dot] ++ Re.lits "_id")%list
               (or_introl eq_refl)
               (fun a => literal_class_is_operator "$" a eq_refl)). }
    unfold pattern_flag, logical_error_patterns. cbn [existsb].
    now rewrite H1, H2, H3, H4, H5. }
  split; [exact Hp|]. intros r. unfold _has_semantic_error.
  fold (pattern_flag query). now rewrite Hp.
Qed.

Lemma no_operator_no_pattern_witness :
  pattern_flag "db.users.find({'user_id': {'ne': 'user_id'}})" = false /\
  (forall r,
     _has_semantic_error "db.users.find({'user_id': {'ne': 'user_id'}})" r
     = _check_result_query_mismatch
         "db.users.find({'user_id': {'ne': 'user_id'}})" r).
Proof.
  apply no_operator_no_pattern. reflexivity.
Defined.

(** ** Values compared with each other and with themselves *)

Lemma PyVal_nested_ind (P : PyVal -> Prop) :
  P VNone ->
  (forall b, P (VBool b)) ->
  (forall z, P (VInt z)) ->
  (forall f, P (VFloat f)) ->
  (forall s, P (VStr s)) ->
  (forall l, Forall P l -> P (VList l)) ->
  (forall d, Forall (fun kv => P (snd kv)) d -> P (VDict d)) ->
  forall v, P v.
Proof.
  intros HN HB HI HF HS HL HD. fix IH 1.
  intros [ |b|z|f|s|l|d];
    [exact HN | apply HB | apply HI | apply HF | apply HS | | ].
  - apply HL. revert l. fix IHl 1. intros [|x l]; constructor;
      [apply IH | apply IHl].
  - apply HD. revert d. fix IHd 1. intros [|[k x] d]; constructor;
      [apply IH | apply IHd].
Qed.

Lemma dict_get_In {A : Type} (key : string) (d : dict A) (v : A) :
  dict_get key d = Some v -> In (key, v) d.
Proof.
  induction d as [|[k u] d IH]; simpl; [discriminate|].
  destruct (String.eqb key k) eqn:E.
  - apply String.eqb_eq in E. subst k. intros [= ->]. now left.
  - intros H. right. now apply IH.
Qed.

Lemma distinct_head (key : string) (keys : list string) :
  negb (existsb (String.eqb key) keys) = true -> ~ In key keys.
Proof.
  intros H Hin. apply negb_true_iff in H.
  assert (E : existsb (String.eqb key) keys = true).
  { apply existsb_exists. exists key. split; [exact Hin|].
    apply String.eqb_refl. }
  congruence.
Qed.

Lemma distinct_NoDup (keys : list string) :
  distinct keys = true -> NoDup keys.
Proof.
  induction keys as [|k keys IH]; simpl; [constructor|].
  rewrite andb_true_iff. intros [Hk Hd].
  constructor; [now apply distinct_head | now apply IH].
Qed.

Lemma dict_get_distinct {A : Type} (key : string) (d : dict A) (v : A) :
  distinct (map fst d) = true -> In (key, v) d -> dict_get key d = Some v.
Proof.
  induction d as [|[k u] d IH]; simpl; [contradiction|].
  rewrite andb_true_iff. intros [Hk Hd] [[= -> ->]|Hin].
  - now rewrite String.eqb_refl.
  - destruct (String.eqb key k) eqn:E; [|now apply IH].
    apply String.eqb_eq in E. subst k. apply distinct_head in Hk.
    exfalso. apply Hk. apply in_map_iff. now exists (key, v).
Qed.

Lemma dict_get_key {A : Type} (key : string) (d : dict A) :
  In key (map fst d) -> exists v, dict_get key d = Some v.
Proof.
  induction d as [|[k u] d IH]; simpl; [contradiction|].
  destruct (String.eqb key k) eqn:E; [now eexists|].
  intros [->|Hin]; [|now apply IH].
  rewrite String.eqb_refl in E. discriminate.
Qed.

(** Two mappings of one size with different keys each: if every entry of
    the first has a related entry in the second, every entry of the second
    is the related entry of one of the first. *)
Lemma dict_entries_swap (R : PyVal -> PyVal -> Prop) (a b : dict PyVal) :
  distinct (map fst a) = true ->
  distinct (map fst b) = true ->
  List.length a = List.length b ->
  (forall k u, In (k, u) a -> exists w, dict_get k b = Some w /\ R u w) ->
  forall k w, In (k, w) b ->
              exists u, dict_get k a = Some u /\ In (k, u) a /\ R u w.
Proof.
  intros Ha Hb Hlen Hall k w Hin.
  assert (Hincl : incl (map fst a) (map fst b)).
  { intros key Hkey. apply in_map_iff in Hkey.
    destruct Hkey as ([k' u] & <- & Hu). simpl.
    destruct (Hall k' u Hu) as (w' & Hw' & _).
    apply dict_get_In in Hw'. apply in_map_iff. now exists (k', w'). }
  assert (Hincl' : incl (map fst b) (map fst a)).
  { apply NoDup_length_incl; [now apply distinct_NoDup | | exact Hincl].
    rewrite !length_map. lia. }
  assert (Hk : In k (map fst a)).
  { apply Hincl'. apply in_map_iff. now exists (k, w). }
  destruct (dict_get_key k a Hk) as [u Hu].
  exists u. split; [exact Hu|]. pose proof (dict_get_In _ _ _ Hu) as Hua.
  split; [exact Hua|].
  destruct (Hall k u Hua) as (w' & Hw' & HR).
  rewrite (dict_get_distinct k b w Hb Hin) in Hw'. now injection Hw' as <-.
Qed.

Lemma eqb_float_sym (p q : pyfloat) : Num.eqb p q = Num.eqb q p.
Proof.
  destruct p, q; simpl; try reflexivity.
  apply eq_true_iff_eq. rewrite !Qeq_bool_iff. split; intros H; now symmetry.
Qed.

Lemma all2_sym (l l' : list PyVal) :
  Forall (fun u => forall w, well_keyed u = true -> well_keyed w = true ->
                             py_eq u w = py_eq w u) l ->
  forallb well_keyed l = true -> forallb well_keyed l' = true ->
  all2 py_eq l l' = all2 py_eq l' l.
Proof.
  intros HF. revert l'. induction HF as [|u l Hu _ IH]; intros [|w l'];
    simpl; try reflexivity.
  rewrite !andb_true_iff. intros [Hwu Hwl] [Hww Hwl'].
  now rewrite (Hu w Hwu Hww), (IH l' Hwl Hwl').
Qed.

Lemma py_eq_sym (x : PyVal) :
  forall y, well_keyed x = true -> well_keyed y = true ->
            py_eq x y = py_eq y x.
Proof.
  induction x as [ |b|z|f|s|l IHl|a IHa] using PyVal_nested_ind;
    intros y Hx Hy.
  - destruct y; reflexivity.
  - destruct y; try reflexivity; cbn [py_eq as_num]; apply eqb_float_sym.
  - destruct y; try reflexivity; cbn [py_eq as_num]; apply eqb_float_sym.
  - destruct y; try reflexivity; cbn [py_eq as_num]; apply eqb_float_sym.
  - destruct y; try reflexivity. simpl. apply String.eqb_sym.
  - destruct y as [ | | | | |l'| ]; try reflexivity.
    cbn [py_eq]. cbn [well_keyed] in Hx, Hy. now apply all2_sym.
  - destruct y as [ | | | | | |b]; try reflexivity.
    cbn [well_keyed] in Hx, Hy. apply andb_true_iff in Hx, Hy.
    destruct Hx as [Hda Hwa], Hy as [Hdb Hwb].
    rewrite forallb_forall in Hwa, Hwb. rewrite Forall_forall in IHa.
    cbn [py_eq]. apply eq_true_iff_eq.
    rewrite !andb_true_iff, !Nat.eqb_eq, !forallb_forall.
    split; intros [Hlen Hall]; (split; [now symmetry|]).
    + intros [k w] Hin. cbn [fst snd].
      destruct (dict_entries_swap (fun u w => py_eq u w = true) a b
                  Hda Hdb Hlen) with (k := k) (w := w)
        as (u & Hu & Hua & HR); [|exact Hin|].
      * intros k' u Hu. specialize (Hall (k', u) Hu). cbn [fst snd] in Hall.
        destruct (dict_get k' b) as [w'|]; [now exists w' | discriminate].
      * rewrite Hu.
        pose proof (IHa (k, u) Hua w (Hwa (k, u) Hua) (Hwb (k, w) Hin)) as E.
        cbn [snd] in E. now rewrite <- E.
    + intros [k u] Hin. cbn [fst snd].
      destruct (dict_entries_swap (fun w u => py_eq w u = true) b a
                  Hdb Hda Hlen) with (k := k) (w := u)
        as (w & Hw & Hwb' & HR); [|exact Hin|].
      * intros k' w Hw. specialize (Hall (k', w) Hw). cbn [fst snd] in Hall.
        destruct (dict_get k' a) as [u'|]; [now exists u' | discriminate].
      * rewrite Hw.
        pose proof (IHa (k, u) Hin w (Hwa (k, u) Hin) (Hwb (k, w) Hwb')) as E.
        cbn [snd] in E. now rewrite E.
Qed.

Lemma abs_sub_sym (x y : pyfloat) :
  Num.abs (Num.sub x y) = Num.abs (Num.sub y x).
Proof.
  destruct x, y; simpl; try reflexivity. f_equal. apply Qabs_Qminus.
Qed.

Lemma pytype_eqb_sym (s t : pytype) : pytype_eqb s t = pytype_eqb t s.
Proof. destruct s, t; reflexivity. Qed.

(** X19. The comparison of a computed value with an expected one is
    symmetric: exchanging the two values gives the same answer, for every
    tolerance (the keys of a mapping being pairwise different, as in a
    Python dict). *)
Theorem values_match_symmetric :
  forall (calculated expected : PyVal) (tolerance : pyfloat),
    well_keyed calculated = true -> well_keyed expected = true ->
    _values_match calculated expected tolerance
    = _values_match expected calculated tolerance.
Proof.
  intros c e tol Hc He. unfold _values_match.
  rewrite (pytype_eqb_sym (type_of e) (type_of c)).
  rewrite (andb_comm (is_number e) (is_number c)).
  destruct (negb (pytype_eqb (type_of c) (type_of e)) &&
            negb (is_number c && is_number e)); [reflexivity|].
  destruct (as_num c) as [x|] eqn:Ec, (as_num e) as [y|] eqn:Ee.
  - now rewrite abs_sub_sym.
  - destruct c, e; try discriminate; try reflexivity;
      cbn [is_list_or_dict andb]; now apply py_eq_sym.
  - destruct c, e; try discriminate; try reflexivity;
      cbn [is_list_or_dict andb]; now apply py_eq_sym.
  - destruct c, e; try discriminate; try reflexivity;
      cbn [is_list_or_dict andb];
      try (now apply py_eq_sym).
    now rewrite String.eqb_sym.
Qed.

Lemma values_match_symmetric_witness :
  _values_match
    (VDict [("a", VInt 1); ("b", VList [VStr "x"; VFloat (Fin 2.5)])])
    (VDict [("b", VList [VStr "x"; VFloat (Fin 2.5)]); ("a", VBool true)])
    tolerance_default
  = _values_match
      (VDict [("b", VList [VStr "x"; VFloat (Fin 2.5)]); ("a", VBool true)])
      (VDict [("a", VInt 1); ("b", VList [VStr "x"; VFloat (Fin 2.5)])])
      tolerance_default.
Proof.
  apply values_match_symmetric; reflexivity.
Defined.

Lemma eqb_float_refl (q : Q) : Num.eqb (Fin q) (Fin q) = true.
Proof. simpl. apply Qeq_bool_iff. reflexivity. Qed.

Lemma py_eq_refl (v : PyVal) :
  well_keyed v = true -> all_finite v = true -> py_eq v v = true.
Proof.
  induction v as [ |b|z|f|s|l IHl|d IHd] using PyVal_nested_ind;
    intros Hk Hf.
  - reflexivity.
  - cbn [py_eq as_num]. apply eqb_float_refl.
  - cbn [py_eq as_num]. apply eqb_float_refl.
  - destruct f; try discriminate. cbn [py_eq as_num]. apply eqb_float_refl.
  - simpl. apply String.eqb_refl.
  - cbn [py_eq]. cbn [well_keyed all_finite] in Hk, Hf.
    induction IHl as [|u l Hu _ IH]; [reflexivity|].
    simpl in Hk, Hf |- *. apply andb_true_iff in Hk, Hf.
    destruct Hk as [Hk1 Hk2], Hf as [Hf1 Hf2].
    now rewrite (Hu Hk1 Hf1), (IH Hk2 Hf2).
  - cbn [py_eq]. cbn [well_keyed all_finite] in Hk, Hf.
    apply andb_true_iff in Hk. destruct Hk as [Hd Hk].
    rewrite Nat.eqb_refl. cbn [andb]. apply forallb_forall.
    intros [k u] Hin. cbn [fst snd].
    rewrite (dict_get_distinct k d u Hd Hin).
    rewrite forallb_forall in Hk, Hf. rewrite Forall_forall in IHd.
    exact (IHd (k, u) Hin (Hk (k, u) Hin) (Hf (k, u) Hin)).
Qed.

Lemma values_match_refl (v : PyVal) :
  well_keyed v = true -> all_finite v = true ->
  _values_match v v tolerance_default = true.
Proof.
  intros Hk Hf. unfold _values_match.
  replace (pytype_eqb (type_of v) (type_of v)) with true
    by (destruct (type_of v); reflexivity).
  cbn [negb andb].
  destruct (as_num v) as [x|] eqn:E.
  - assert (Hx : exists q, x = Fin q).
    { destruct v; try discriminate; simpl in E; injection E as <-;
        try (now eexists). destruct f; try discriminate. now eexists. }
    destruct Hx as [q ->]. simpl. apply Qle_bool_iff.
    assert (Hz : Qabs (q - q) == 0).
    { rewrite (Qabs_wd (q - q) 0); [reflexivity | ring]. }
    rewrite Hz. discriminate.
  - destruct v; try discriminate; try reflexivity.
    + apply String.eqb_refl.
    + cbn [is_list_or_dict andb]. now apply py_eq_refl.
    + cbn [is_list_or_dict andb]. now apply py_eq_refl.
Qed.

Lemma filter_all {A : Type} (f : A -> bool) (xs : list A) :
  (forall x, In x xs -> f x = true) -> filter f xs = xs.
Proof.
  induction xs as [|x xs IH]; intros H; simpl; [reflexivity|].
  rewrite (H x (or_introl eq_refl)). f_equal. apply IH.
  intros y Hy. apply H. now right.
Qed.

(** X20. Results evaluated against themselves as reference have an
    accuracy rate of 1, provided they hold no infinity and no NaN (and
    the keys of each mapping are pairwise different, as in a Python
    dict). *)
Theorem accuracy_against_itself :
  forall (r : UniversalAnalysisResult) (items : dict PyVal),
    calculation_results r = VDict items ->
    well_keyed (VDict items) = true ->
    all_finite (VDict items) = true ->
    exists rate,
      _calculate_accuracy_rate r (Some items) = Ok rate /\ rate == 1.
Proof.
  intros r items Hr Hk Hf.
  cbn [well_keyed all_finite] in Hk, Hf. apply andb_true_iff in Hk.
  destruct Hk as [Hd Hk]. rewrite forallb_forall in Hk, Hf.
  unfold _calculate_accuracy_rate. rewrite Hr. unfold py_items, bind.
  rewrite compare_items_counts.
  assert (Hc : compared_entries items items = items).
  { apply filter_all. intros [k v] Hin. unfold has_key. cbn [fst].
    now rewrite (dict_get_distinct k items v Hd Hin). }
  assert (Hm : matching_entries items items = items).
  { apply filter_all. intros [k v] Hin. cbn [fst snd].
    rewrite (dict_get_distinct k items v Hd Hin).
    apply values_match_refl;
      [exact (Hk (k, v) Hin) | exact (Hf (k, v) Hin)]. }
  rewrite Hc, Hm. eexists. split; [reflexivity|].
  destruct items as [|kv items]; [reflexivity|].
  cbn [List.length Nat.add Nat.ltb Nat.leb]. apply int_div_same. lia.
Qed.

Lemma accuracy_against_itself_witness :
  exists rate,
    _calculate_accuracy_rate record_with_problems
      (Some [ ("active_users", VInt (-10)); ("error_result", VNone);
              ("invalid_rate", VInt 150) ]) = Ok rate /\
    rate == 1.
Proof.
  apply (accuracy_against_itself record_with_problems); reflexivity.
Defined.

(** ** Reference and recommendation *)

(** X21. An empty reference mapping is a reference all the same: with it
    the accuracy rate is 1 whatever the results hold, and the consistency
    score that an absent reference would apply is not computed. *)
Theorem empty_reference_skips_consistency :
  forall (r : UniversalAnalysisResult) (items : dict PyVal),
    calculation_results r = VDict items ->
    _calculate_accuracy_rate r (Some []) = Ok 1 /\
    (forall self m, evaluate self r (Some []) = Ok m -> accuracy_rate m = 1).
Proof.
  intros r items Hr.
  assert (H : _calculate_accuracy_rate r (Some []) = Ok 1).
  { unfold _calculate_accuracy_rate. rewrite Hr. unfold py_items, bind.
    rewrite compare_items_counts.
    replace (compared_entries items []) with (@nil (string * PyVal));
      [reflexivity|].
    unfold compared_entries. clear Hr. induction items as [|kv items IH];
      [reflexivity | exact IH]. }
  split; [exact H|]. intros self m Hm. apply evaluate_Ok in Hm.
  destruct Hm as (_ & _ & _ & Ha & _). rewrite H in Ha.
  apply Ok_injective in Ha. now symmetry.
Qed.

Lemma empty_reference_skips_consistency_witness :
  _calculate_accuracy_rate record_negative_counts (Some []) = Ok 1 /\
  _calculate_accuracy_rate record_negative_counts None = Ok 0 /\
  (forall self m,
     evaluate self record_negative_counts (Some []) = Ok m ->
     accuracy_rate m = 1).
Proof.
  pose proof (empty_reference_skips_consistency record_negative_counts _
                eq_refl) as [H1 H2].
  split; [exact H1|]. split; [reflexivity | exact H2].
Defined.

(** X22. In the quality checker, strict or not, the recommendation agrees
    with the verdict: the list of issues is empty exactly when the
    evaluation passes, so a failed check always names at least one
    dimension to review, and a passed one returns the message of trust. *)
Theorem recommendation_agrees_with_verdict :
  forall (strict_mode : bool) (user_query : string)
         (queries : list string) (results : PyVal)
         (execution_info : option (list (dict PyVal)))
         (m : EvaluationMetrics),
    check_analysis_quality_metrics (checker_init strict_mode) user_query
      queries results execution_info = Ok m ->
    (overall_pass m = true <->
     recommendation_issues (checker_init strict_mode) m = []) /\
    (overall_pass m = true ->
     _get_recommendation (checker_init strict_mode) m = trust_message).
Proof.
  intros strict text queries results info m H.
  split; [|intros Hp; unfold _get_recommendation; now rewrite Hp].
  unfold check_analysis_quality_metrics, quick_evaluate in H.
  apply evaluate_Ok in H. destruct H as (_ & _ & _ & _ & Hp).
  unfold recommendation_issues, threshold_or.
  destruct strict; cbn [checker_init strict_thresholds dict_get String.eqb
                         Ascii.eqb Bool.eqb] in *.
  - rewrite (overall_pass_value
               (__init__ (strict_thresholds (checker_init true))) _ _ _ _
               (Fin 0.05) (Fin 0.95) (Fin 0.1) (Fin 0.95)
               eq_refl eq_refl eq_refl eq_refl) in Hp.
    apply Ok_injective in Hp. rewrite <- Hp.
    unfold Num.gtb, Num.geb, Num.ltb, Num.leb, Num.Qlt_bool.
    destruct (Qle_bool (semantic_error_rate m) 0.05);
      destruct (Qle_bool 0.95 (execution_success_rate m));
      destruct (Qle_bool (empty_result_rate m) 0.1);
      destruct (Qle_bool 0.95 (accuracy_rate m));
      cbn [negb andb app]; split; intros E; try reflexivity;
      discriminate E.
  - rewrite (overall_pass_value
               (__init__ (strict_thresholds (checker_init false))) _ _ _ _
               (Fin 0.1) (Fin 0.8) (Fin 0.2) (Fin 0.9)
               eq_refl eq_refl eq_refl eq_refl) in Hp.
    apply Ok_injective in Hp. rewrite <- Hp.
    unfold Num.gtb, Num.geb, Num.ltb, Num.leb, Num.Qlt_bool.
    destruct (Qle_bool (semantic_error_rate m) 0.1);
      destruct (Qle_bool 0.8 (execution_success_rate m));
      destruct (Qle_bool (empty_result_rate m) 0.2);
      destruct (Qle_bool 0.9 (accuracy_rate m));
      cbn [negb andb app]; split; intros E; try reflexivity;
      discriminate E.
Qed.

Lemma recommendation_agrees_with_verdict_witness :
  exists m,
    check_analysis_quality_metrics (checker_init false) "활성 사용자 수 계산"
      (mongodb_queries record_with_problems)
      (calculation_results record_with_problems)
      (Some (execution_logs record_with_problems)) = Ok m /\
    recommendation_issues (checker_init false) m
    = ["쿼리 논리 검토"; "데이터 존재 확인"; "계산 로직 검증"] /\
    (overall_pass m = true <->
     recommendation_issues (checker_init false) m = []) /\
    (overall_pass m = true ->
     _get_recommendation (checker_init false) m = trust_message).
Proof.
  eexists. split; [vm_compute; reflexivity|]. split; [reflexivity|].
  apply (recommendation_agrees_with_verdict false "활성 사용자 수 계산"
           (mongodb_queries record_with_problems)
           (calculation_results record_with_problems)
           (Some (execution_logs record_with_problems))).
  vm_compute. reflexivity.
Defined.
